(** * fbmessenger: outbound object model, sender and webhook dispatcher

    A shallow embedding of the Go package [fbmessenger] (message.go,
    events.go, webhook.go, sender.go) and the properties its specification
    states about it.

    Conventions of the embedding.
    - A Go struct is a record inside a module named after the struct, so
      that [Message.Text], [Element.Buttons], [callback.Event] read as in
      the source.
    - A Go [string] (and every named string type: [NotificationType],
      [MultimediaType], ...) is a [string]; Go [int] and [int64] are [Z];
      [float64] is the binary64 [float].
    - An interface-typed field ([Recipient], [Attachment], [Button]) is an
      [option]: [None] is the nil interface, the zero value the field has
      when a struct literal leaves it out.  Calling [Source] on it panics.
    - A pointer the code compares with nil (the optional fields of
      [callback]) is an [option]; a pointer to a struct of the object model
      that the caller builds ([*Message], [*QuickReply], [*Element], the
      receivers held by an interface) is modelled by the struct it points
      to.  The elements of the decoded [messaging] array come from the wire,
      where [null] yields a nil [*callback]: they are [option]s.
    - A Go slice that is only ranged over and measured with [len] is a
      [list] (nil and empty slices behave alike there).  A slice the code
      builds with [var s []T] and [append] is a [slice]: nil or a list.
    - [map[string]interface{}] is a [gmap string value]. *)

From Stdlib Require Import ZArith Floats Ascii String.
From stdpp Require Import gmap strings list fin_maps sorting.

Set Warnings "-register-all,-clear-no-such-hyp".
Set Default Proof Using "Type".
Open Scope string_scope.
Open Scope Z_scope.

(** ** Errors and results *)

Module fbError.
(** sender.go, [type fbError struct]. *)
Record t := mk {
  Message : string;
  Type_ : string;
  Code : Z;
  ErrorSubcode : Z;
  FBTraceID : string;
}.
(** [func (err *fbError) Error() string]. *)
Definition Error (err : t) : string := Message err.
End fbError.

(** A Go [error] value: a [*fbError], or an error of [errors], [io],
    [net/http] or [encoding/json], known here by its message. *)
Inductive error :=
| ErrorString (msg : string)
| FbError (e : fbError.t).

Definition error_Error (e : error) : string :=
  match e with
  | ErrorString msg => msg
  | FbError e => fbError.Error e
  end.

(** webhook.go, package variables. *)
Definition ErrVerifyTokenMismatch : error := ErrorString "verify token mismatch".
Definition errUnknownCallback : error := ErrorString "unknown callback".

(** What a call of type [func() (T, error)] does: it returns a value and a
    nil error, returns a non-nil error, or panics on a nil dereference. *)
Inductive result (A : Type) :=
| Ok (a : A)
| Err (e : error)
| Panic.
Arguments Ok {A} a.
Arguments Err {A} e.
Arguments Panic {A}.

Global Instance result_ret : MRet result := @Ok.
Global Instance result_bind : MBind result := λ A B f m,
  match m with
  | Ok a => f a
  | Err e => Err e
  | Panic => Panic
  end.

Global Instance result_fmap : FMap result := λ A B f m,
  match m with
  | Ok a => Ok (f a)
  | Err e => Err e
  | Panic => Panic
  end.

(** ** JSON-compatible trees *)

(** A slice value: nil, or a list of elements. *)
Definition slice (A : Type) := option (list A).

(** [append(s, x)]: the result is never nil. *)
Definition append {A} (s : slice A) (x : A) : slice A :=
  Some (default [] s ++ [x])%list.

(** The [interface{}] trees that [Source] returns: strings, booleans,
    [[]interface{}] slices and string-keyed maps (a [map[string]string] is
    the map of its strings). *)
Inductive value :=
| VString (s : string)
| VBool (b : bool)
| VSlice (s : slice value)
| VMap (m : gmap string value).

(** A JSON text as a tree; an object lists its members in order. *)
Inductive json :=
| JNull
| JBool (b : bool)
| JNumber (literal : string)
| JString (s : string)
| JArray (elems : list json)
| JObject (members : list (string * json)).

Definition key_le (a b : string * json) : Prop := String.leb a.1 b.1 = true.
Global Instance key_le_dec a b : Decision (key_le a b).
Proof. unfold key_le. apply _. Defined.

(** [json.Marshal] on such a tree: a nil slice encodes as [null], any other
    slice as an array, a map as an object with its keys sorted. *)
Fixpoint Marshal (v : value) : json :=
  match v with
  | VString s => JString s
  | VBool b => JBool b
  | VSlice None => JNull
  | VSlice (Some l) => JArray (map Marshal l)
  | VMap m => JObject (merge_sort key_le (map_to_list (Marshal <$> m)))
  end.

(** The loop
    [var srcs []interface{}; for _, x := range xs { src, err := x.Source();
     if err != nil { return nil, err }; srcs = append(srcs, src) }]. *)
Fixpoint Sources_from {A} (Source : A → result value) (xs : list A)
    (srcs : slice value) : result (slice value) :=
  match xs with
  | [] => Ok srcs
  | x :: xs =>
      src ← Source x;
      Sources_from Source xs (append srcs src)
  end.

Definition Sources {A} (Source : A → result value) (xs : list A) : result (slice value) :=
  Sources_from Source xs None.

(** A method call through an interface value; the nil interface panics. *)
Definition invoke {A} (Source : A → result value) (i : option A) : result value :=
  match i with
  | Some x => Source x
  | None => Panic
  end.

(** ** message.go: the object model *)

Module User.
Definition t := string.
Definition Source (u : t) : result value :=
  Ok (VMap {[ "id" := VString u ]}).
End User.

Module PhoneNumber.
Definition t := string.
Definition Source (n : t) : result value :=
  Ok (VMap {[ "phone_number" := VString n ]}).
End PhoneNumber.

Module Recipient.
(** The implementations of the interface [Recipient]. *)
Inductive t :=
| OfUser (u : User.t)
| OfPhoneNumber (n : PhoneNumber.t).
Definition Source (r : t) : result value :=
  match r with
  | OfUser u => User.Source u
  | OfPhoneNumber n => PhoneNumber.Source n
  end.
End Recipient.

Definition RegularPush : string := "REGULAR".
Definition SilentPush : string := "SILENT_PUSH".
Definition NoPush : string := "NO_PUSH".

Module QuickReply.
Record t := mk {
  Title : string;
  ImageURL : string;
  Payload : string;
  AskForLocation : bool;
}.
Definition Source (qr : t) : result value :=
  let src : gmap string value := ∅ in
  let src := if decide (Title qr ≠ "") then <["title" := VString (Title qr)]> src else src in
  let src := if decide (ImageURL qr ≠ "") then <["image_url" := VString (ImageURL qr)]> src else src in
  let src := if decide (Payload qr ≠ "") then <["payload" := VString (Payload qr)]> src else src in
  let src := if AskForLocation qr
             then <["content_type" := VString "location"]> src
             else <["content_type" := VString "text"]> src in
  Ok (VMap src).
End QuickReply.

Definition Audio : string := "audio".
Definition File : string := "file".
Definition Image : string := "image".
Definition Video : string := "video".

Module MultimediaAttachment.
Record t := mk {
  Type_ : string;
  URL : string;
  AttachmentID : string;
  Reusable : bool;
}.
Definition Source (a : t) : result value :=
  let payload : gmap string value := ∅ in
  let payload :=
    if decide (AttachmentID a ≠ "") then
      <["attachment_id" := VString (AttachmentID a)]> payload
    else
      let payload := <["url" := VString (URL a)]> payload in
      if Reusable a then <["is_reusable" := VBool true]> payload else payload in
  Ok (VMap (<["payload" := VMap payload]> {[ "type" := VString (Type_ a) ]})).
End MultimediaAttachment.

Definition WebviewHeightRatioCompact : string := "compact".
Definition WebviewHeightRatioTail : string := "tail".
Definition WebviewHeightRatioFull : string := "full".

Module URLButton.
Record t := mk {
  Title : string;
  URL : string;
  WebviewHeightRatio : string;
  MessengerExtensions : bool;
  FallbackURL : string;
}.
Definition Source (b : t) : result value :=
  let src : gmap string value :=
    <["url" := VString (URL b)]>
      (<["title" := VString (Title b)]> {[ "type" := VString "web_url" ]}) in
  let src := if decide (WebviewHeightRatio b ≠ "")
             then <["webview_height_ratio" := VString (WebviewHeightRatio b)]> src else src in
  let src := if MessengerExtensions b
             then <["messenger_extensions" := VBool (MessengerExtensions b)]> src else src in
  let src := if decide (FallbackURL b ≠ "")
             then <["fallback_url" := VString (FallbackURL b)]> src else src in
  Ok (VMap src).
End URLButton.

Module PostbackButton.
Record t := mk { Title : string; Payload : string }.
Definition Source (b : t) : result value :=
  Ok (VMap (<["payload" := VString (Payload b)]>
             (<["title" := VString (Title b)]> {[ "type" := VString "postback" ]}))).
End PostbackButton.

Module CallButton.
Record t := mk { Title : string; PhoneNumber : string }.
Definition Source (b : t) : result value :=
  Ok (VMap (<["payload" := VString (PhoneNumber b)]>
             (<["title" := VString (Title b)]> {[ "type" := VString "phone_number" ]}))).
End CallButton.

Module ShareButton.
Record t := mk { }.
Definition Source (b : t) : result value :=
  Ok (VMap {[ "type" := VString "element_share" ]}).
End ShareButton.

Module AccountLinkButton.
Record t := mk { URL : string }.
Definition Source (b : t) : result value :=
  Ok (VMap (<["url" := VString (URL b)]> {[ "type" := VString "account_link" ]})).
End AccountLinkButton.

Module AccountUnlinkButton.
Record t := mk { }.
Definition Source (b : t) : result value :=
  Ok (VMap {[ "type" := VString "account_unlink" ]}).
End AccountUnlinkButton.

Module Button.
(** The implementations of the interface [Button]. *)
Inductive t :=
| OfURLButton (b : URLButton.t)
| OfPostbackButton (b : PostbackButton.t)
| OfCallButton (b : CallButton.t)
| OfShareButton (b : ShareButton.t)
| OfAccountLinkButton (b : AccountLinkButton.t)
| OfAccountUnlinkButton (b : AccountUnlinkButton.t).
Definition Source (btn : t) : result value :=
  match btn with
  | OfURLButton b => URLButton.Source b
  | OfPostbackButton b => PostbackButton.Source b
  | OfCallButton b => CallButton.Source b
  | OfShareButton b => ShareButton.Source b
  | OfAccountLinkButton b => AccountLinkButton.Source b
  | OfAccountUnlinkButton b => AccountUnlinkButton.Source b
  end.
End Button.

Module Element.
Record t := mk {
  Title : string;
  Subtitle : string;
  ItemURL : string;
  ImageURL : string;
  Buttons : list (option Button.t);
  DefaultAction : option Button.t;
}.
Definition Source (e : t) : result value :=
  let src : gmap string value := {[ "title" := VString (Title e) ]} in
  let src := if decide (Subtitle e ≠ "") then <["subtitle" := VString (Subtitle e)]> src else src in
  let src := if decide (ItemURL e ≠ "") then <["item_url" := VString (ItemURL e)]> src else src in
  let src := if decide (ImageURL e ≠ "") then <["image_url" := VString (ImageURL e)]> src else src in
  src ← (if decide (0 < length (Buttons e))%nat then
           btnSrcs ← Sources (invoke Button.Source) (Buttons e);
           Ok (<["buttons" := VSlice btnSrcs]> src)
         else Ok src);
  src ← (match DefaultAction e with
         | Some btn =>
             btnSrc ← Button.Source btn;
             Ok (<["default_action" := btnSrc]> src)
         | None => Ok src
         end);
  Ok (VMap src).
End Element.

Module ButtonTemplate.
Record t := mk {
  Text : string;
  Buttons : list (option Button.t);
}.
Definition Source (t0 : t) : result value :=
  btnSrcs ← Sources (invoke Button.Source) (Buttons t0);
  Ok (VMap (<["payload" :=
              VMap (<["buttons" := VSlice btnSrcs]>
                     (<["text" := VString (Text t0)]>
                        {[ "template_type" := VString "button" ]}))]>
             {[ "type" := VString "template" ]})).
End ButtonTemplate.

Module GenericTemplate.
Record t := mk {
  Elements : list Element.t;
}.
Definition Source (t0 : t) : result value :=
  elementSrcs ← Sources Element.Source (Elements t0);
  Ok (VMap (<["payload" :=
              VMap (<["elements" := VSlice elementSrcs]>
                     {[ "template_type" := VString "generic" ]})]>
             {[ "type" := VString "template" ]})).
End GenericTemplate.

Definition StyleLarge : string := "large".
Definition StyleCompact : string := "compact".

Module ListTemplate.
Record t := mk {
  Elements : list Element.t;
  TopElementStyle : string;
  Buttons : list (option Button.t);
}.
Definition Source (t0 : t) : result value :=
  let src : gmap string value := {[ "template_type" := VString "list" ]} in
  let src := if decide (TopElementStyle t0 ≠ "")
             then <["top_element_style" := VString (TopElementStyle t0)]> src else src in
  elementSrcs ← Sources Element.Source (Elements t0);
  let src := <["elements" := VSlice elementSrcs]> src in
  src ← (if decide (0 < length (Buttons t0))%nat then
           btnSrcs ← Sources (invoke Button.Source) (Buttons t0);
           Ok (<["buttons" := VSlice btnSrcs]> src)
         else Ok src);
  Ok (VMap (<["payload" := VMap src]> {[ "type" := VString "template" ]})).
End ListTemplate.

Module Attachment.
(** The implementations of the interface [Attachment]. *)
Inductive t :=
| OfMultimediaAttachment (a : MultimediaAttachment.t)
| OfButtonTemplate (a : ButtonTemplate.t)
| OfGenericTemplate (a : GenericTemplate.t)
| OfListTemplate (a : ListTemplate.t).
Definition Source (a : t) : result value :=
  match a with
  | OfMultimediaAttachment a => MultimediaAttachment.Source a
  | OfButtonTemplate a => ButtonTemplate.Source a
  | OfGenericTemplate a => GenericTemplate.Source a
  | OfListTemplate a => ListTemplate.Source a
  end.
End Attachment.

Module Message.
Record t := mk {
  To : option Recipient.t;
  Text : string;
  Attachment : option Attachment.t;
  QuickReplies : list QuickReply.t;
  Metadata : string;
  NotificationType : string;
}.
Definition Source (m : t) : result value :=
  toSrc ← invoke Recipient.Source (To m);
  let src : gmap string value := {[ "recipient" := toSrc ]} in
  let msg : gmap string value := ∅ in
  msg ← (if decide (Text m ≠ "") then
           let msg := <["text" := VString (Text m)]> msg in
           if decide (0 < length (QuickReplies m))%nat then
             replies ← Sources QuickReply.Source (QuickReplies m);
             Ok (<["quick_replies" := VSlice replies]> msg)
           else Ok msg
         else
           match Attachment m with
           | Some a =>
               src ← Attachment.Source a;
               Ok (<["attachment" := src]> msg)
           | None => Ok msg
           end);
  let msg := if decide (Metadata m ≠ "") then <["metadata" := VString (Metadata m)]> msg else msg in
  let src := <["message" := VMap msg]> src in
  let src := if decide (NotificationType m ≠ "")
             then <["notification_type" := VString (NotificationType m)]> src else src in
  Ok (VMap src).
End Message.


(** ** events.go: the inbound event model *)

Module Metadata.
Record t := mk {
  PageID : string;
  SenderID : string;
  RecipientID : string;
  Timestamp : Z;
}.
Definition zero : t := mk "" "" "" 0.
End Metadata.

Module CallbackUnsupported.
(** [Extra] is a [map[string]interface{}]: nil, or a map whose values are
    decoded JSON values, kept here as the JSON they were decoded from. *)
Record t := mk {
  Metadata : Metadata.t;
  Extra : option (gmap string json);
}.
End CallbackUnsupported.

Module VerificationFailed.
Record t := mk { Token : string; Err : error }.
End VerificationFailed.

Module VerificationCompleted.
Record t := mk { Challenge : string }.
End VerificationCompleted.

Module Coordinates.
Record t := mk { Lat : float; Long : float }.
End Coordinates.

Module MultimediaPayload.
Record t := mk { URL : string }.
End MultimediaPayload.

Module LocationPayload.
Record t := mk { Coordinates : option Coordinates.t }.
End LocationPayload.

Module AttachmentInfo.
Record Payload_t := mkPayload {
  MultimediaPayload : option MultimediaPayload.t;
  LocationPayload : option LocationPayload.t;
}.
Record t := mk { Type_ : string; Payload : Payload_t }.
Definition IsMultimedia (p : t) : bool := bool_decide (MultimediaPayload (Payload p) ≠ None).
Definition IsLocation (p : t) : bool := bool_decide (LocationPayload (Payload p) ≠ None).
End AttachmentInfo.

Module MessageReceived.
Record QuickReply_t := mkQuickReply { Payload : string }.
Record t := mk {
  Metadata : Metadata.t;
  MessageID : string;
  Seq : Z;
  Text : string;
  StickerID : Z;
  Attachments : list (option AttachmentInfo.t);
  QuickReply : option QuickReply_t;
}.
Definition zero : t := mk Metadata.zero "" 0 "" 0 [] None.
Definition set_Metadata (md : Metadata.t) (m : t) : t :=
  mk md (MessageID m) (Seq m) (Text m) (StickerID m) (Attachments m) (QuickReply m).
Definition HasAttachments (m : t) : bool := bool_decide (0 < length (Attachments m))%nat.
Definition IsQuickReply (m : t) : bool := bool_decide (QuickReply m ≠ None).
End MessageReceived.

Module MessageDelivered.
Record t := mk {
  Metadata : Metadata.t;
  MessageIDs : list string;
  Watermark : Z;
  Seq : Z;
}.
Definition zero : t := mk Metadata.zero [] 0 0.
Definition set_Metadata (md : Metadata.t) (m : t) : t :=
  mk md (MessageIDs m) (Watermark m) (Seq m).
End MessageDelivered.

Module MessageRead.
Record t := mk {
  Metadata : Metadata.t;
  Watermark : Z;
  Seq : Z;
}.
Definition zero : t := mk Metadata.zero 0 0.
Definition set_Metadata (md : Metadata.t) (m : t) : t := mk md (Watermark m) (Seq m).
End MessageRead.

Module ReferralUsed.
Record t := mk {
  Metadata : Metadata.t;
  Type_ : string;
  Reference : string;
  Source : string;
}.
Definition zero : t := mk Metadata.zero "" "" "".
Definition set_Metadata (md : Metadata.t) (r : t) : t :=
  mk md (Type_ r) (Reference r) (Source r).
End ReferralUsed.

Module PostbackReceived.
Record t := mk {
  Metadata : Metadata.t;
  Payload : string;
  Referral : option ReferralUsed.t;
}.
Definition zero : t := mk Metadata.zero "" None.
Definition set_Metadata (md : Metadata.t) (p : t) : t := mk md (Payload p) (Referral p).
End PostbackReceived.

Module AccountLinked.
Record t := mk { Metadata : Metadata.t; AuthorizationCode : string }.
End AccountLinked.

Module AccountUnlinked.
Record t := mk { Metadata : Metadata.t; AuthorizationCode : string }.
End AccountUnlinked.

Module OptInTapped.
Record t := mk { Metadata : Metadata.t; Reference : string }.
Definition zero : t := mk Metadata.zero "".
Definition set_Metadata (md : Metadata.t) (o : t) : t := mk md (Reference o).
End OptInTapped.

(** [type Event interface{}]: the values the webhook hands to the listener. *)
Inductive Event :=
| OfCallbackUnsupported (e : CallbackUnsupported.t)
| OfVerificationFailed (e : VerificationFailed.t)
| OfVerificationCompleted (e : VerificationCompleted.t)
| OfMessageReceived (e : MessageReceived.t)
| OfMessageDelivered (e : MessageDelivered.t)
| OfMessageRead (e : MessageRead.t)
| OfPostbackReceived (e : PostbackReceived.t)
| OfReferralUsed (e : ReferralUsed.t)
| OfAccountLinked (e : AccountLinked.t)
| OfAccountUnlinked (e : AccountUnlinked.t)
| OfOptInTapped (e : OptInTapped.t).

(** The embedded [Metadata] of an event; the two verification events have none. *)
Definition Event_Metadata (e : Event) : option Metadata.t :=
  match e with
  | OfCallbackUnsupported e => Some (CallbackUnsupported.Metadata e)
  | OfVerificationFailed _ => None
  | OfVerificationCompleted _ => None
  | OfMessageReceived e => Some (MessageReceived.Metadata e)
  | OfMessageDelivered e => Some (MessageDelivered.Metadata e)
  | OfMessageRead e => Some (MessageRead.Metadata e)
  | OfPostbackReceived e => Some (PostbackReceived.Metadata e)
  | OfReferralUsed e => Some (ReferralUsed.Metadata e)
  | OfAccountLinked e => Some (AccountLinked.Metadata e)
  | OfAccountUnlinked e => Some (AccountUnlinked.Metadata e)
  | OfOptInTapped e => Some (OptInTapped.Metadata e)
  end.

(** ** encoding/json, as far as the package relies on it

    [json.Unmarshal] into a struct binds each member of a JSON object to the
    struct field whose JSON name equals the member's key, exactly or else
    up to case folding, and skips a member that binds to no field.  The
    JSON name of a field is the name in its [json:"..."] tag; a tag with an
    empty name, such as [json:",inline"], leaves the Go field name, and
    options other than [omitempty] and [string] have no effect.  A value of
    the wrong JSON type makes [Unmarshal] return an error ([None] here). *)

Module encoding_json.

Definition upper (c : ascii) : ascii :=
  let n := N_of_ascii c in
  if ((97 <=? n) && (n <=? 122))%N then ascii_of_N (n - 32) else c.

Definition is_byte (c : ascii) (n : N) : bool := (N_of_ascii c =? n)%N.

(** [foldName]: ASCII letters fold to upper case; the two non-ASCII runes
    that fold to an ASCII letter are U+017F (bytes C5 BF), which folds to
    [S], and U+212A (bytes E2 84 AA), which folds to [K].  Every other
    non-ASCII rune folds to a non-ASCII rune and is left as it is: it
    cannot make a key equal to an ASCII field name either way. *)
Fixpoint foldName (s : string) : string :=
  match s with
  | EmptyString => EmptyString
  | String a s1 =>
      match s1 with
      | String b s2 =>
          if is_byte a 197 && is_byte b 191 then String "S"%char (foldName s2)
          else
            match s2 with
            | String c s3 =>
                if is_byte a 226 && is_byte b 132 && is_byte c 170
                then String "K"%char (foldName s3)
                else String (upper a) (foldName s1)
            | EmptyString => String (upper a) (foldName s1)
            end
      | EmptyString => String (upper a) (foldName s1)
      end
  end.

(** The field a key binds to: an exact match first, else the first field
    equal up to folding. *)
Definition find_field {F} (fields : list (string * F)) (key : string) : option F :=
  match List.find (λ nf, String.eqb nf.1 key) fields with
  | Some nf => Some nf.2
  | None =>
      match List.find (λ nf, String.eqb (foldName nf.1) (foldName key)) fields with
      | Some nf => Some nf.2
      | None => None
      end
  end.

(** The members of an object decoded one after the other into [cur]. *)
Fixpoint decode_members {F T} (fields : list (string * F))
    (set : F → json → T → option T) (members : list (string * json)) (cur : T) : option T :=
  match members with
  | [] => Some cur
  | (key, v) :: members =>
      match find_field fields key with
      | Some f =>
          cur ← set f v cur;
          decode_members fields set members cur
      | None => decode_members fields set members cur
      end
  end.

(** Into a struct: [null] leaves it as it is, an object is decoded member
    by member, anything else is a type error. *)
Definition decode_struct {F T} (fields : list (string * F))
    (set : F → json → T → option T) (v : json) (cur : T) : option T :=
  match v with
  | JNull => Some cur
  | JObject members => decode_members fields set members cur
  | _ => None
  end.

(** Into a pointer: [null] sets it to nil; otherwise the value is decoded
    into the struct it points to, a new zero struct when it is nil. *)
Definition decode_ptr {T} (zero : T) (decode : json → T → option T)
    (v : json) (cur : option T) : option (option T) :=
  match v with
  | JNull => Some None
  | _ => Some <$> decode v (default zero cur)
  end.

Definition decode_string (v : json) (cur : string) : option string :=
  match v with
  | JNull => Some cur
  | JString s => Some s
  | _ => None
  end.

Definition digit (c : ascii) : option Z :=
  let n := Z.of_N (N_of_ascii c) in
  if (48 <=? n) && (n <=? 57) then Some (n - 48) else None.

Fixpoint digits (s : string) (acc : Z) : option Z :=
  match s with
  | EmptyString => Some acc
  | String c s =>
      d ← digit c;
      digits s (10 * acc + d)
  end.

(** [strconv.ParseInt(literal, 10, 64)] on a JSON number literal. *)
Definition ParseInt64 (literal : string) : option Z :=
  let '(neg, ds) :=
    match literal with
    | String "-"%char ds => (true, ds)
    | _ => (false, literal)
    end in
  if decide (ds = "") then None
  else
    n ← digits ds 0;
    let n := if neg : bool then - n else n in
    if (- 2 ^ 63 <=? n) && (n <? 2 ^ 63) then Some n else None.

Definition decode_int64 (v : json) (cur : Z) : option Z :=
  match v with
  | JNull => Some cur
  | JNumber literal => ParseInt64 literal
  | _ => None
  end.

(** Into a [map[string]interface{}]: [null] sets it to nil; an object adds
    its members to the map (a new one when it is nil), a later member
    replacing an earlier one with the same key. *)
Definition decode_map (v : json) (cur : option (gmap string json)) : option (option (gmap string json)) :=
  match v with
  | JNull => Some None
  | JObject members =>
      Some (Some (foldl (λ m kv, <[kv.1 := kv.2]> m) (default ∅ cur) members))
  | _ => None
  end.

(** The decoding of the event payloads ([MessageReceived], ...), whose
    fields are bound by the same rules from the tags in events.go; each
    takes the JSON value and the struct to decode into. *)
Class PayloadDecoders := {
  decode_MessageReceived : json → MessageReceived.t → option MessageReceived.t;
  decode_MessageDelivered : json → MessageDelivered.t → option MessageDelivered.t;
  decode_MessageRead : json → MessageRead.t → option MessageRead.t;
  decode_PostbackReceived : json → PostbackReceived.t → option PostbackReceived.t;
  decode_OptInTapped : json → OptInTapped.t → option OptInTapped.t;
  decode_ReferralUsed : json → ReferralUsed.t → option ReferralUsed.t;
}.

End encoding_json.

(** ** webhook.go: the decoded callback and its classification *)

Module callback.
Record ID_t := mkID { ID : string }.
Record AccountLinking_t := mkAccountLinking {
  Status : string;
  AuthorizationCode : string;
}.
Record t := mk {
  Sender : ID_t;
  Recipient : ID_t;
  Timestamp : Z;
  Message : option MessageReceived.t;
  Delivery : option MessageDelivered.t;
  Read : option MessageRead.t;
  Postback : option PostbackReceived.t;
  AccountLinking : option AccountLinking_t;
  OptIn : option OptInTapped.t;
  Referral : option ReferralUsed.t;
  Extra : option (gmap string json);
}.
Definition zero : t := mk (mkID "") (mkID "") 0 None None None None None None None None.

(** [func (cb *callback) Event(pageID string) Event]. *)
Definition Event (cb : t) (pageID : string) : Event :=
  let md := Metadata.mk pageID (ID (Sender cb)) (ID (Recipient cb)) (Timestamp cb) in
  match Message cb with
  | Some m => OfMessageReceived (MessageReceived.set_Metadata md m)
  | None =>
  match Delivery cb with
  | Some d => OfMessageDelivered (MessageDelivered.set_Metadata md d)
  | None =>
  match Read cb with
  | Some r => OfMessageRead (MessageRead.set_Metadata md r)
  | None =>
  match Postback cb with
  | Some p => OfPostbackReceived (PostbackReceived.set_Metadata md p)
  | None =>
  match AccountLinking cb with
  | Some al =>
      if decide (Status al = "linked") then
        OfAccountLinked (AccountLinked.mk md (AuthorizationCode al))
      else
        OfAccountUnlinked (AccountUnlinked.mk md "")
  | None =>
  match OptIn cb with
  | Some o => OfOptInTapped (OptInTapped.set_Metadata md o)
  | None =>
  match Referral cb with
  | Some r => OfReferralUsed (ReferralUsed.set_Metadata md r)
  | None => OfCallbackUnsupported (CallbackUnsupported.mk md (Extra cb))
  end end end end end end end.

(** The fields of [callback] with the JSON names their tags give them.
    [Extra] is tagged [json:",inline"]: its JSON name is [Extra]. *)
Inductive field :=
| FSender | FRecipient | FTimestamp | FMessage | FDelivery | FRead
| FPostback | FAccountLinking | FOptIn | FReferral | FExtra.

Definition fields : list (string * field) :=
  [ ("sender", FSender); ("recipient", FRecipient); ("timestamp", FTimestamp);
    ("message", FMessage); ("delivery", FDelivery); ("read", FRead);
    ("postback", FPostback); ("account_linking", FAccountLinking);
    ("optin", FOptIn); ("referral", FReferral); ("Extra", FExtra) ].

Inductive ID_field := FID.
Definition ID_fields : list (string * ID_field) := [ ("id", FID) ].
Definition decode_ID : json → ID_t → option ID_t :=
  encoding_json.decode_struct ID_fields
    (λ _ v cur, mkID <$> encoding_json.decode_string v (ID cur)).

Inductive AccountLinking_field := FStatus | FAuthorizationCode.
Definition AccountLinking_fields : list (string * AccountLinking_field) :=
  [ ("status", FStatus); ("authorization_code", FAuthorizationCode) ].
Definition decode_AccountLinking : json → AccountLinking_t → option AccountLinking_t :=
  encoding_json.decode_struct AccountLinking_fields
    (λ f v cur,
       match f with
       | FStatus =>
           s ← encoding_json.decode_string v (Status cur);
           Some (mkAccountLinking s (AuthorizationCode cur))
       | FAuthorizationCode =>
           c ← encoding_json.decode_string v (AuthorizationCode cur);
           Some (mkAccountLinking (Status cur) c)
       end).

Section Unmarshal.
Context `{!encoding_json.PayloadDecoders}.
Import encoding_json.

(** One member of the callback object decoded into the field it binds to. *)
Definition set_field (f : field) (v : json) (cb : t) : option t :=
  match f with
  | FSender =>
      x ← decode_ID v (Sender cb);
      Some (mk x (Recipient cb) (Timestamp cb) (Message cb) (Delivery cb) (Read cb)
               (Postback cb) (AccountLinking cb) (OptIn cb) (Referral cb) (Extra cb))
  | FRecipient =>
      x ← decode_ID v (Recipient cb);
      Some (mk (Sender cb) x (Timestamp cb) (Message cb) (Delivery cb) (Read cb)
               (Postback cb) (AccountLinking cb) (OptIn cb) (Referral cb) (Extra cb))
  | FTimestamp =>
      x ← decode_int64 v (Timestamp cb);
      Some (mk (Sender cb) (Recipient cb) x (Message cb) (Delivery cb) (Read cb)
               (Postback cb) (AccountLinking cb) (OptIn cb) (Referral cb) (Extra cb))
  | FMessage =>
      x ← decode_ptr MessageReceived.zero decode_MessageReceived v (Message cb);
      Some (mk (Sender cb) (Recipient cb) (Timestamp cb) x (Delivery cb) (Read cb)
               (Postback cb) (AccountLinking cb) (OptIn cb) (Referral cb) (Extra cb))
  | FDelivery =>
      x ← decode_ptr MessageDelivered.zero decode_MessageDelivered v (Delivery cb);
      Some (mk (Sender cb) (Recipient cb) (Timestamp cb) (Message cb) x (Read cb)
               (Postback cb) (AccountLinking cb) (OptIn cb) (Referral cb) (Extra cb))
  | FRead =>
      x ← decode_ptr MessageRead.zero decode_MessageRead v (Read cb);
      Some (mk (Sender cb) (Recipient cb) (Timestamp cb) (Message cb) (Delivery cb) x
               (Postback cb) (AccountLinking cb) (OptIn cb) (Referral cb) (Extra cb))
  | FPostback =>
      x ← decode_ptr PostbackReceived.zero decode_PostbackReceived v (Postback cb);
      Some (mk (Sender cb) (Recipient cb) (Timestamp cb) (Message cb) (Delivery cb) (Read cb)
               x (AccountLinking cb) (OptIn cb) (Referral cb) (Extra cb))
  | FAccountLinking =>
      x ← decode_ptr (mkAccountLinking "" "") decode_AccountLinking v (AccountLinking cb);
      Some (mk (Sender cb) (Recipient cb) (Timestamp cb) (Message cb) (Delivery cb) (Read cb)
               (Postback cb) x (OptIn cb) (Referral cb) (Extra cb))
  | FOptIn =>
      x ← decode_ptr OptInTapped.zero decode_OptInTapped v (OptIn cb);
      Some (mk (Sender cb) (Recipient cb) (Timestamp cb) (Message cb) (Delivery cb) (Read cb)
               (Postback cb) (AccountLinking cb) x (Referral cb) (Extra cb))
  | FReferral =>
      x ← decode_ptr ReferralUsed.zero decode_ReferralUsed v (Referral cb);
      Some (mk (Sender cb) (Recipient cb) (Timestamp cb) (Message cb) (Delivery cb) (Read cb)
               (Postback cb) (AccountLinking cb) (OptIn cb) x (Extra cb))
  | FExtra =>
      x ← decode_map v (Extra cb);
      Some (mk (Sender cb) (Recipient cb) (Timestamp cb) (Message cb) (Delivery cb) (Read cb)
               (Postback cb) (AccountLinking cb) (OptIn cb) (Referral cb) x)
  end.

(** [json.Unmarshal] of the members of one element of [messaging] into a
    new [callback]. *)
Definition Unmarshal (members : list (string * json)) : option t :=
  decode_members fields set_field members zero.

End Unmarshal.
End callback.

(** ** net/http and io, as far as the package uses them *)

Definition StatusOK : Z := 200.
Definition StatusBadRequest : Z := 400.
Definition StatusForbidden : Z := 403.
Definition StatusMethodNotAllowed : Z := 405.
Definition MethodGet : string := "GET".
Definition MethodPost : string := "POST".

(** A body ([io.Reader]) by what [ioutil.ReadAll] gets from it: the data,
    or an error. *)
Inductive Reader :=
| Reads (data : string)
| ReadFails (err : error).

Module Values.
(** [url.Values] and [func (v Values) Get(key string) string]: the first
    value of the key, or the empty string. *)
Definition t := gmap string (list string).
Definition Get (v : t) (key : string) : string :=
  match v !! key with
  | Some (x :: _) => x
  | _ => ""
  end.
End Values.

Module Request.
(** An inbound [*http.Request]; [Query] is [r.URL.Query()]. *)
Record t := mk {
  Method : string;
  Query : Values.t;
  Body : Reader;
}.
End Request.

Module ResponseWriter.
(** What has been written to an [http.ResponseWriter]: the status code of
    the header, once sent, and the body. *)
Record t := mk {
  Status : option Z;
  Body : string;
}.
Definition fresh : t := mk None "".
Definition WriteHeader (code : Z) (w : t) : t :=
  match Status w with
  | None => mk (Some code) (Body w)
  | Some _ => w
  end.
Definition Write (data : string) (w : t) : t :=
  let w := WriteHeader StatusOK w in
  mk (Status w) (Body w ++ data).
End ResponseWriter.

(** ** webhook.go: the handler *)

Module cbs.
(** The struct [handleCallbacks] decodes the body into, over the type [C]
    of the elements of [messaging]. *)
Record Page_t (C : Type) := mkPage {
  ID : string;
  Timestamp : Z;
  Callbacks : list (option C);
}.
Arguments mkPage {C} _ _ _.
Arguments ID {C} _.
Arguments Timestamp {C} _.
Arguments Callbacks {C} _.
Record t (C : Type) := mk {
  Object : string;
  Pages : list (Page_t C);
}.
Arguments mk {C} _ _.
Arguments Object {C} _.
Arguments Pages {C} _.

(** [json.Unmarshal(body, &cbs)] down to the elements of [messaging], each
    left as the members of its JSON object ([None] for [null]); [None] when
    [Unmarshal] returns an error there. *)
Class EnvelopeDecoder := Unmarshal_envelope : string → option (t (list (string * json))).

Section Unmarshal.
Context `{!encoding_json.PayloadDecoders} `{!EnvelopeDecoder}.

Definition Unmarshal_element (o : option (list (string * json))) : option (option callback.t) :=
  match o with
  | None => Some None
  | Some members => Some <$> callback.Unmarshal members
  end.

Definition Unmarshal_page (p : Page_t (list (string * json))) : option (Page_t callback.t) :=
  mkPage (ID p) (Timestamp p) <$> mapM Unmarshal_element (Callbacks p).

(** [json.Unmarshal(body, &cbs)]. *)
Definition Unmarshal (body : string) : option (t callback.t) :=
  raw ← Unmarshal_envelope body;
  mk (Object raw) <$> mapM Unmarshal_page (Pages raw).
End Unmarshal.
End cbs.

Module webhook.
Section webhook.
Context {S : Type}.

(** The listener is a Go function called for its effect: it takes the
    event and the state of the world [S] it runs in to the state it leaves. *)
Record t := mk {
  listener : Event → S → S;
  verifyTokens : gset string;
}.

(** How a handler ends: it returns, or it panics; either way with what it
    wrote and the state the listener calls left. *)
Inductive outcome :=
| Returns (w : ResponseWriter.t) (s : S)
| Panics (w : ResponseWriter.t) (s : S).

Definition emitEvent (wh : t) (e : Event) (s : S) : S := listener wh e s.

Definition handleVerification (wh : t) (w : ResponseWriter.t) (r : Request.t) (s : S) : outcome :=
  let q := Request.Query r in
  if decide (Values.Get q "hub.verify_token" ∈ verifyTokens wh) then
    let s := emitEvent wh (OfVerificationCompleted
               (VerificationCompleted.mk (Values.Get q "hub.challenge"))) s in
    let w := ResponseWriter.WriteHeader StatusOK w in
    let w := ResponseWriter.Write (Values.Get q "hub.challenge") w in
    Returns w s
  else
    let s := emitEvent wh (OfVerificationFailed
               (VerificationFailed.mk (Values.Get q "hub.verify_token") ErrVerifyTokenMismatch)) s in
    let w := ResponseWriter.WriteHeader StatusForbidden w in
    Returns w s.

(** [for _, cb := range page.Callbacks { wh.emitEvent(cb.Event(page.ID)) }]:
    [inr] is the state after the loop, [inl] the state at a panic
    ([cb.Event] dereferences a nil [cb]). *)
Fixpoint range_Callbacks (wh : t) (pageID : string) (cbs : list (option callback.t))
    (s : S) : S + S :=
  match cbs with
  | [] => inr s
  | None :: _ => inl s
  | Some cb :: cbs => range_Callbacks wh pageID cbs (emitEvent wh (callback.Event cb pageID) s)
  end.

(** [for _, page := range cbs.Pages { ... }]. *)
Fixpoint range_Pages (wh : t) (pages : list (cbs.Page_t callback.t)) (s : S) : S + S :=
  match pages with
  | [] => inr s
  | page :: pages =>
      match range_Callbacks wh (cbs.ID page) (cbs.Callbacks page) s with
      | inr s => range_Pages wh pages s
      | inl s => inl s
      end
  end.

Context `{!encoding_json.PayloadDecoders} `{!cbs.EnvelopeDecoder}.

Definition handleCallbacks (wh : t) (w : ResponseWriter.t) (r : Request.t) (s : S) : outcome :=
  match Request.Body r with
  | ReadFails _ => Returns (ResponseWriter.WriteHeader StatusBadRequest w) s
  | Reads body =>
      match cbs.Unmarshal body with
      | None => Returns (ResponseWriter.WriteHeader StatusBadRequest w) s
      | Some cbs =>
          match range_Pages wh (cbs.Pages cbs) s with
          | inr s => Returns (ResponseWriter.WriteHeader StatusOK w) s
          | inl s => Panics w s
          end
      end
  end.

End webhook.
Arguments t : clear implicits.
Arguments outcome : clear implicits.
End webhook.

Section WebhookHandler.
Context {S : Type} `{!encoding_json.PayloadDecoders} `{!cbs.EnvelopeDecoder}.

Definition EventListener := Event → S → S.
Definition WebhookOption := webhook.t S → webhook.t S.

(** [h.verifyTokens[t] = struct{}{}]. *)
Definition VerifyToken (t : string) : WebhookOption :=
  λ h, webhook.mk (webhook.listener h) ({[ t ]} ∪ webhook.verifyTokens h).

Definition WebhookHandler (l : EventListener) (opts : list WebhookOption)
    : ResponseWriter.t → Request.t → S → webhook.outcome S :=
  let wh := foldl (λ wh opt, opt wh) (webhook.mk l ∅) opts in
  λ w r s,
    if decide (Request.Method r = MethodGet) then webhook.handleVerification wh w r s
    else if decide (Request.Method r = MethodPost) then webhook.handleCallbacks wh w r s
    else webhook.Returns (ResponseWriter.WriteHeader StatusMethodNotAllowed w) s.
End WebhookHandler.
Arguments EventListener : clear implicits.
Arguments WebhookOption : clear implicits.

(** ** sender.go *)

Module Response.
(** The [*http.Response] of the outbound call. *)
Record t := mk {
  StatusCode : Z;
  Body : Reader;
}.
End Response.

Module Call.
(** The outbound [*http.Request]; its body is the marshalled tree. *)
Record t := mk {
  Method : string;
  URL : string;
  Header : gmap string string;
  Body : json;
}.
Definition Header_Set (key v : string) (c : t) : t :=
  mk (Method c) (URL c) (<[key := v]> (Header c)) (Body c).
End Call.

Module MessageResponse.
Record t := mk {
  RecipientID : string;
  MessageID : string;
  AttachmentID : string;
}.
Definition zero : t := mk "" "" "".
End MessageResponse.

(** [json.NewDecoder(body).Decode(dst)] for a [dst] that points to a [D]:
    the error it returns, if any, and what [dst] points to afterwards. *)
Class Decodable (D : Type) := Decode : Reader → D → option error * D.

(** A nil [dst] points to nothing. *)
Global Instance Decodable_nil : Decodable Empty_set := λ _ d, (None, d).

Definition SenderAction := string.
Definition MarkSeen : SenderAction := "mark_seen".
Definition TypingOn : SenderAction := "typing_on".
Definition TypingOff : SenderAction := "typing_off".

Module Sender.
Section Sender.
(** [http.NewRequest(method, url, body)]: the request, or an error. *)
Variable NewRequest : string → string → json → error + Call.t.
(** [json.Unmarshal(slurp, &errResp)]: the error it returns, or
    [errResp.Error] as the envelope [{"error": {...}}] fills it. *)
Variable Unmarshal_errResp : string → error + fbError.t.

(** [client] is [s.client.Do]; [endpoint] is [s.endpoint.String()]. *)
Record t := mk {
  accessToken : string;
  client : Call.t → error + Response.t;
  endpoint : string;
}.

Definition checkResponse (s : t) (resp : Response.t) : option error :=
  if decide (Response.StatusCode resp >= 200 ∧ Response.StatusCode resp <= 299) then None
  else
    match Response.Body resp with
    | ReadFails err =>
        Some (FbError (fbError.mk (error_Error err) "" (Response.StatusCode resp) 0 ""))
    | Reads slurp =>
        match Unmarshal_errResp slurp with
        | inl err =>
            Some (FbError (fbError.mk (error_Error err) "" (Response.StatusCode resp) 0 ""))
        | inr errResp_Error => Some (FbError errResp_Error)
        end
    end.

(** [func (s *Sender) send(src interface{}, dst interface{}) error]: the
    error returned and what [dst] points to afterwards.  [json.Marshal]
    returns no error on a [value]. *)
Definition send {D} `{!Decodable D} (s : t) (src : value) (dst : option D)
    : option error * option D :=
  let body := Marshal src in
  match NewRequest "POST" (endpoint s) body with
  | inl err => (Some err, dst)
  | inr call =>
      let call := Call.Header_Set "Content-Type" "application/json" call in
      match client s call with
      | inl err => (Some err, dst)
      | inr resp =>
          match checkResponse s resp with
          | Some err => (Some err, dst)
          | None =>
              match dst with
              | None => (None, None)
              | Some d =>
                  let '(err, d) := Decode (Response.Body resp) d in
                  (err, Some d)
              end
          end
      end
  end.

Context `{!Decodable MessageResponse.t}.

(** [Sender.SendMessage]: the message response and a nil error, or an error. *)
Definition SendMessage (s : t) (msg : Message.t) : result MessageResponse.t :=
  match Message.Source msg with
  | Panic => Panic
  | Err err => Err err
  | Ok src =>
      let '(err, resp) := send s src (Some MessageResponse.zero) in
      match err with
      | Some err => Err err
      | None => Ok (default MessageResponse.zero resp)
      end
  end.

(** [Sender.SendAction]. *)
Definition SendAction (s : t) (to : option Recipient.t) (action : SenderAction) : result unit :=
  match invoke Recipient.Source to with
  | Panic => Panic
  | Err err => Err err
  | Ok recipient =>
      let src := VMap (<["sender_action" := VString action]> {[ "recipient" := recipient ]}) in
      match (send s src (None : option Empty_set)).1 with
      | Some err => Err err
      | None => Ok ()
      end
  end.

End Sender.
End Sender.

(** ** sender.go: construction *)

Module url.
(** [net/url], as far as [NewSender] uses it. *)
Record Userinfo := mkUserinfo {
  username : string;
  password : string;
  passwordSet : bool;
}.
Record URL := mk {
  Scheme : string;
  Opaque : string;
  User : option Userinfo;
  Host : string;
  Path : string;
  RawPath : string;
  OmitHost : bool;
  ForceQuery : bool;
  RawQuery : string;
  Fragment : string;
  RawFragment : string;
}.
Definition set_RawQuery (q : string) (u : URL) : URL :=
  mk (Scheme u) (Opaque u) (User u) (Host u) (Path u) (RawPath u) (OmitHost u)
     (ForceQuery u) q (Fragment u) (RawFragment u).

(** [func (v Values) Set(key, value string)]: the key gets the one value. *)
Definition Values_Set (key value : string) (v : Values.t) : Values.t :=
  <[key := [value]]> v.

(** [url.ParseQuery] (what it parses, its error dropped), [Values.Encode]
    and [URL.String]. *)
Class Codec := {
  ParseQuery : string → Values.t;
  Encode : Values.t → string;
  String : URL → string;
}.

(** [func (u *URL) Query() Values]. *)
Definition Query `{!Codec} (u : URL) : Values.t := ParseQuery (RawQuery u).
End url.

Definition defaultMessengerEndpoint : url.URL :=
  url.mk "https" "" None "graph.facebook.com" "/v2.6/me/messages" "" false false "" "" "".

(** What [s.client.Do] does for an [*http.Client]. *)
Definition Client := Call.t → error + Response.t.

Module SenderStruct.
(** The [Sender] struct while [NewSender] builds it: [client] and
    [endpoint] are pointers, nil until an option sets them. *)
Record t := mk {
  accessToken : string;
  client : option Client;
  endpoint : option url.URL;
}.
End SenderStruct.

(** [type SenderOption]: a function on the struct under construction that
    may return an error; here, the struct as the option leaves it, or the
    error. *)
Definition SenderOption := SenderStruct.t → error + SenderStruct.t.


Definition Endpoint (u : option url.URL) : SenderOption :=
  λ s, inr (SenderStruct.mk (SenderStruct.accessToken s) (SenderStruct.client s) u).

(** [for _, opt := range opts { if err := opt(s); err != nil { return nil, err } }]. *)
Fixpoint apply_options (opts : list SenderOption) (s : SenderStruct.t)
    : error + SenderStruct.t :=
  match opts with
  | [] => inr s
  | opt :: opts =>
      match opt s with
      | inl err => inl err
      | inr s => apply_options opts s
      end
  end.

Section NewSender.
Context `{!url.Codec}.
(** [http.DefaultClient]. *)
Variable DefaultClient : Client.

(** The copy of the endpoint with the access token as query parameter. *)
Definition with_access_token (accessToken : string) (endpoint : url.URL) : url.URL :=
  let qs := url.Query endpoint in
  let qs := url.Values_Set "access_token" accessToken qs in
  url.set_RawQuery (url.Encode qs) endpoint.

Definition NewSender (accessToken : string) (opts : list SenderOption) : error + Sender.t :=
  match apply_options opts (SenderStruct.mk accessToken None None) with
  | inl err => inl err
  | inr s =>
      let client := default DefaultClient (SenderStruct.client s) in
      let endpoint := default defaultMessengerEndpoint (SenderStruct.endpoint s) in
      let endpoint := with_access_token accessToken endpoint in
      inr (Sender.mk accessToken client (url.String endpoint))
  end.
End NewSender.

(** ** Vocabulary of the properties *)


(** No nil interface among the children on which [Source] is called
    without a nil check: the recipient and the buttons of every list.  (A nil
    attachment and a nil default action are skipped by the code.) *)
Definition Buttons_nil_free (btns : list (option Button.t)) : Prop :=
  Forall (λ btn, btn ≠ None) btns.

(** The kinds of callback, in the order of precedence of the
    specification: message, delivery, read, postback, account_linking,
    optin, referral; a callback of none of them is unsupported. *)
Inductive kind :=
| KMessage | KDelivery | KRead | KPostback | KAccountLinking | KOptIn | KReferral
| KUnsupported.

(** The precedence as an ordered list of (kind, field is present) pairs. *)
Definition precedence : list (kind * (callback.t → bool)) :=
  [ (KMessage, λ cb, bool_decide (callback.Message cb ≠ None));
    (KDelivery, λ cb, bool_decide (callback.Delivery cb ≠ None));
    (KRead, λ cb, bool_decide (callback.Read cb ≠ None));
    (KPostback, λ cb, bool_decide (callback.Postback cb ≠ None));
    (KAccountLinking, λ cb, bool_decide (callback.AccountLinking cb ≠ None));
    (KOptIn, λ cb, bool_decide (callback.OptIn cb ≠ None));
    (KReferral, λ cb, bool_decide (callback.Referral cb ≠ None)) ].

(** First match wins. *)
Definition first_match (cb : callback.t) : kind :=
  match List.find (λ p, p.2 cb) precedence with
  | Some p => p.1
  | None => KUnsupported
  end.

(** The kind of callback an event stands for; the verification events
    stand for none. *)
Definition Event_kind (e : Event) : option kind :=
  match e with
  | OfMessageReceived _ => Some KMessage
  | OfMessageDelivered _ => Some KDelivery
  | OfMessageRead _ => Some KRead
  | OfPostbackReceived _ => Some KPostback
  | OfAccountLinked _ => Some KAccountLinking
  | OfAccountUnlinked _ => Some KAccountLinking
  | OfOptInTapped _ => Some KOptIn
  | OfReferralUsed _ => Some KReferral
  | OfCallbackUnsupported _ => Some KUnsupported
  | OfVerificationFailed _ => None
  | OfVerificationCompleted _ => None
  end.

(** The events of a decoded payload in array order: entry by entry, and
    within an entry callback by callback. *)
Definition Page_events (page : cbs.Page_t callback.t) : list Event :=
  omap (λ o, (λ cb, callback.Event cb (cbs.ID page)) <$> o) (cbs.Callbacks page).
Definition events (pages : list (cbs.Page_t callback.t)) : list Event :=
  pages ≫= Page_events.



(** A listener that records the events it is given, latest last. *)
Definition recorder : EventListener (list Event) := λ e s, (s ++ [e])%list.

(** Decoders for the examples: payloads are decoded as found, and the
    envelope of every body holds the given pages. *)
Definition keep_payloads : encoding_json.PayloadDecoders :=
  {| encoding_json.decode_MessageReceived := λ _ cur, Some cur;
     encoding_json.decode_MessageDelivered := λ _ cur, Some cur;
     encoding_json.decode_MessageRead := λ _ cur, Some cur;
     encoding_json.decode_PostbackReceived := λ _ cur, Some cur;
     encoding_json.decode_OptInTapped := λ _ cur, Some cur;
     encoding_json.decode_ReferralUsed := λ _ cur, Some cur |}.
Definition envelope_of (pages : list (cbs.Page_t (list (string * json)))) : cbs.EnvelopeDecoder :=
  λ _, Some (cbs.mk "page" pages).

(** An example payload: the entries as they arrive, and as decoded.  The
    first callback of entry [P1] holds both a message and an
    account_linking object, its second one only an unrecognized key; the
    time of the entry (100) differs from the timestamp of its callback
    (200). *)
Definition example_entries : list (cbs.Page_t (list (string * json))) :=
  [ cbs.mkPage "P1" 100
      [ Some [ ("sender", JObject [("id", JString "U1")]);
               ("recipient", JObject [("id", JString "P1")]);
               ("timestamp", JNumber "200");
               ("message", JObject []);
               ("account_linking", JObject [("status", JString "linked");
                                            ("authorization_code", JString "c0de")]) ];
        Some [ ("sender", JObject [("id", JString "U2")]);
               ("foo", JString "bar") ] ];
    cbs.mkPage "P2" 300
      [ Some [ ("account_linking", JObject [("status", JString "unlinked");
                                            ("authorization_code", JString "c0de")]) ] ] ].

Definition example_message_and_linking : callback.t :=
  callback.mk (callback.mkID "U1") (callback.mkID "P1") 200
    (Some MessageReceived.zero) None None None
    (Some (callback.mkAccountLinking "linked" "c0de")) None None None.
Definition example_unrecognized : callback.t :=
  callback.mk (callback.mkID "U2") (callback.mkID "") 0
    None None None None None None None None.
Definition example_unlinking : callback.t :=
  callback.mk (callback.mkID "") (callback.mkID "") 0
    None None None None (Some (callback.mkAccountLinking "unlinked" "c0de")) None None None.
Definition example_page : cbs.Page_t callback.t :=
  cbs.mkPage "P1" 100 [ Some example_message_and_linking; Some example_unrecognized ].

(** The error [checkResponse] builds when the body cannot be read or
    decoded: the failure's message and the status code; the other fields
    keep their zero values. *)
Definition fallback (failure : error) (resp : Response.t) : error :=
  FbError (fbError.mk (error_Error failure) "" (Response.StatusCode resp) 0 "").

(** A sender for the examples: the request is always built, the platform
    answers every call with the given status code and body, and the body
    [envelope] stands for the bytes of an error envelope. *)
Definition example_NewRequest (method url : string) (body : json) : error + Call.t :=
  inr (Call.mk method url ∅ body).
Definition example_envelope : fbError.t :=
  fbError.mk "Invalid OAuth access token." "OAuthException" 190 0 "trace0".
Definition example_Unmarshal_errResp (slurp : string) : error + fbError.t :=
  if decide (slurp = "envelope") then inr example_envelope
  else inl (ErrorString "invalid character").
Definition example_Sender (code : Z) (body : string) : Sender.t :=
  Sender.mk "TOKEN" (λ _, inr (Response.mk code (Reads body)))
    "https://graph.facebook.com/v2.6/me/messages?access_token=TOKEN".
Definition example_Decodable : Decodable MessageResponse.t := λ _ d, (None, d).

(** The value under key [k] of a rendered tree, if the rendering returned a
    map that has the key. *)
Definition field_of (k : string) (r : result value) : option value :=
  match r with
  | Ok (VMap m) => m !! k
  | _ => None
  end.




(** The slots of a decoded payload in array order: the event of each
    callback, [None] for a [null] element. *)
Definition Page_slots (page : cbs.Page_t callback.t) : list (option Event) :=
  map (option_map (λ cb, callback.Event cb (cbs.ID page))) (cbs.Callbacks page).
Definition slots (pages : list (cbs.Page_t callback.t)) : list (option Event) :=
  pages ≫= Page_slots.

Definition has_null (os : list (option Event)) : bool :=
  existsb (λ o, match o with None => true | Some _ => false end) os.

(** The events before the first [null]. *)
Fixpoint before_null (os : list (option Event)) : list Event :=
  match os with
  | Some e :: os => e :: before_null os
  | _ => []
  end.

(** A codec for the examples: queries are not parsed, and a URL prints as
    its host, path and raw query. *)
Definition example_Codec : url.Codec :=
  {| url.ParseQuery := λ _, ∅;
     url.Encode := λ v, "access_token=" ++ Values.Get v "access_token";
     url.String := λ u, url.Host u ++ url.Path u ++ "?" ++ url.RawQuery u |}.
Definition example_Client : Client := λ _, inl (ErrorString "connection refused").

(** * Properties *)

(** ** Rendering lists of children *)

Section Sources.
Context {A : Type} (Source : A → result value).

Lemma Sources_nil : Sources Source [] = Ok None.
Proof. reflexivity. Qed.

(** When every child renders, the loop returns the rendered children in
    order, appended to what was there. *)
Lemma Sources_from_Ok (render : A → value) (xs : list A) (srcs : slice value) :
  (∀ x, x ∈ xs → Source x = Ok (render x)) →
  Sources_from Source xs srcs =
    Ok (match xs with [] => srcs | _ => Some (default [] srcs ++ map render xs)%list end).
Proof.
  revert srcs. induction xs as [|x xs IH]; intros srcs Hall; [reflexivity|].
  cbn [Sources_from]. rewrite (Hall x) by left. cbn.
  rewrite IH by (intros y Hy; apply Hall; by right).
  destruct xs as [|y ys]; cbn; [reflexivity|].
  by rewrite <- !app_assoc.
Qed.

Lemma Sources_Ok (render : A → value) (xs : list A) :
  (∀ x, x ∈ xs → Source x = Ok (render x)) →
  Sources Source xs = Ok (match xs with [] => None | _ => Some (map render xs) end).
Proof.
  intros Hall. unfold Sources. rewrite (Sources_from_Ok render) by done.
  by destruct xs.
Qed.

End Sources.

Section Sources_returns.
Context {A : Type} (Source : A → result value).

Lemma Sources_from_returns (xs : list A) (srcs : slice value) :
  Forall (λ x, ∃ v, Source x = Ok v) xs → ∃ r, Sources_from Source xs srcs = Ok r.
Proof.
  intros Hall. revert srcs.
  induction Hall as [|x xs [v Hv] _ IH]; intros srcs; cbn [Sources_from]; [by eexists|].
  rewrite Hv. cbn. apply IH.
Qed.

Lemma Sources_returns (xs : list A) :
  Forall (λ x, ∃ v, Source x = Ok v) xs → ∃ r, Sources Source xs = Ok r.
Proof. apply Sources_from_returns. Qed.
End Sources_returns.

(** ** The leaves of the object model always render *)


Lemma QuickReply_Source_returns (qr : QuickReply.t) : ∃ v, QuickReply.Source qr = Ok v.
Proof. by eexists. Qed.

Lemma Button_Source_returns (btn : Button.t) : ∃ v, Button.Source btn = Ok v.
Proof. destruct btn; by eexists. Qed.

Lemma QuickReplies_Sources_returns (qrs : list QuickReply.t) :
  ∃ r, Sources QuickReply.Source qrs = Ok r.
Proof.
  apply Sources_returns, Forall_forall. intros qr _. apply QuickReply_Source_returns.
Qed.

Lemma Buttons_Sources_returns (btns : list (option Button.t)) :
  Buttons_nil_free btns → ∃ r, Sources (invoke Button.Source) btns = Ok r.
Proof.
  intros Hnil. apply Sources_returns. eapply Forall_impl; [exact Hnil|].
  intros [btn|] Hbtn; [apply Button_Source_returns|done].
Qed.

(** ** Message: text takes precedence over the attachment *)




(** ** Templates with no buttons or elements *)

(** C9.  A [ButtonTemplate] with no buttons and a [GenericTemplate] or
    [ListTemplate] with no elements still render the key [buttons]
    (respectively [elements]); its value is the nil slice, which
    [json.Marshal] encodes as [null], where an empty non-nil slice would
    give an empty array.  (A [ListTemplate] renders unless one of its
    buttons is a nil interface.) *)
Theorem C9_empty_list_renders_nil_slice :
  (∀ t : ButtonTemplate.t, ButtonTemplate.Buttons t = [] →
     ButtonTemplate.Source t =
       Ok (VMap (<["payload" :=
                   VMap (<["buttons" := VSlice None]>
                          (<["text" := VString (ButtonTemplate.Text t)]>
                             {[ "template_type" := VString "button" ]}))]>
                  {[ "type" := VString "template" ]}))
     ∧ Marshal <$> ButtonTemplate.Source t =
         Ok (JObject [("payload", JObject [("buttons", JNull);
                                           ("template_type", JString "button");
                                           ("text", JString (ButtonTemplate.Text t))]);
                      ("type", JString "template")]))
  ∧ (∀ t : GenericTemplate.t, GenericTemplate.Elements t = [] →
       GenericTemplate.Source t =
         Ok (VMap (<["payload" :=
                     VMap (<["elements" := VSlice None]>
                            {[ "template_type" := VString "generic" ]})]>
                    {[ "type" := VString "template" ]}))
       ∧ Marshal <$> GenericTemplate.Source t =
           Ok (JObject [("payload", JObject [("elements", JNull);
                                             ("template_type", JString "generic")]);
                        ("type", JString "template")]))
  ∧ (∀ t : ListTemplate.t, ListTemplate.Elements t = [] →
       (Buttons_nil_free (ListTemplate.Buttons t) → ∃ v, ListTemplate.Source t = Ok v)
       ∧ (∀ v, ListTemplate.Source t = Ok v →
            ∃ payload : gmap string value,
              v = VMap (<["payload" := VMap payload]> {[ "type" := VString "template" ]})
              ∧ payload !! "elements" = Some (VSlice None)))
  ∧ Marshal (VSlice None) = JNull
  ∧ Marshal (VSlice (Some [])) = JArray [].
Proof.
  split; [|split; [|split; [|done]]].
  - intros t Hbtns. unfold ButtonTemplate.Source. rewrite Hbtns. split; reflexivity.
  - intros t Helems. unfold GenericTemplate.Source. rewrite Helems. split; reflexivity.
  - intros t Helems. unfold ListTemplate.Source. rewrite Helems. cbn. split.
    + intros Hnil. destruct (Buttons_Sources_returns _ Hnil) as [r Hr].
      case_decide; [rewrite Hr|]; by eexists.
    + intros v. case_decide.
      * destruct (Sources _ _) as [r| |]; cbn; [|done..].
        intros [= <-]. eexists. split; [reflexivity|]. by case_decide.
      * cbn. intros [= <-]. eexists. split; [reflexivity|]. by case_decide.
Qed.

(** ** Optional fields left unset *)

(** C8.  For every variant that has optional fields, the rendering with all
    of them unset is the tree shown: it holds the required keys only, so
    the key of each optional field is absent (neither a value nor null).
    The optional fields are: for [Message], text, attachment, quick
    replies, metadata and notification type; for [QuickReply], title, image
    URL and payload; for [MultimediaAttachment], the attachment id and the
    reusable flag (the URL is the required arm when no id is given); for
    [ListTemplate], the top element style and the buttons; for [Element],
    subtitle, item URL, image URL, buttons and default action; for
    [URLButton], the webview height ratio, the messenger extensions flag
    and the fallback URL.  The key [content_type] of a quick reply is
    present whatever its fields are.  [Source] is a function of the value
    alone, so equal values render to equal trees. *)
Theorem C8_unset_optional_fields_are_omitted :
  (∀ m : Message.t,
     Message.Text m = "" → Message.Attachment m = None → Message.QuickReplies m = [] →
     Message.Metadata m = "" → Message.NotificationType m = "" →
     Message.Source m =
       toSrc ← invoke Recipient.Source (Message.To m);
       Ok (VMap (<["message" := VMap ∅]> {[ "recipient" := toSrc ]})))
  ∧ (∀ qr : QuickReply.t,
       QuickReply.Title qr = "" → QuickReply.ImageURL qr = "" → QuickReply.Payload qr = "" →
       QuickReply.Source qr =
         Ok (VMap {[ "content_type" :=
                       VString (if QuickReply.AskForLocation qr then "location" else "text") ]}))
  ∧ (∀ qr : QuickReply.t,
       ∃ src, QuickReply.Source qr = Ok (VMap src)
         ∧ src !! "content_type" =
             Some (VString (if QuickReply.AskForLocation qr then "location" else "text")))
  ∧ (∀ a : MultimediaAttachment.t,
       MultimediaAttachment.AttachmentID a = "" → MultimediaAttachment.Reusable a = false →
       MultimediaAttachment.Source a =
         Ok (VMap (<["payload" := VMap {[ "url" := VString (MultimediaAttachment.URL a) ]}]>
                    {[ "type" := VString (MultimediaAttachment.Type_ a) ]})))
  ∧ (∀ t : ListTemplate.t,
       ListTemplate.TopElementStyle t = "" → ListTemplate.Buttons t = [] →
       ListTemplate.Source t =
         elementSrcs ← Sources Element.Source (ListTemplate.Elements t);
         Ok (VMap (<["payload" :=
                     VMap (<["elements" := VSlice elementSrcs]>
                            {[ "template_type" := VString "list" ]})]>
                    {[ "type" := VString "template" ]})))
  ∧ (∀ e : Element.t,
       Element.Subtitle e = "" → Element.ItemURL e = "" → Element.ImageURL e = "" →
       Element.Buttons e = [] → Element.DefaultAction e = None →
       Element.Source e = Ok (VMap {[ "title" := VString (Element.Title e) ]}))
  ∧ (∀ b : URLButton.t,
       URLButton.WebviewHeightRatio b = "" → URLButton.MessengerExtensions b = false →
       URLButton.FallbackURL b = "" →
       URLButton.Source b =
         Ok (VMap (<["url" := VString (URLButton.URL b)]>
                    (<["title" := VString (URLButton.Title b)]>
                       {[ "type" := VString "web_url" ]}))))
  ∧ (∀ m1 m2 : Message.t, m1 = m2 → Message.Source m1 = Message.Source m2).
Proof.
  repeat split.
  - intros m HText HAtt HQR HMd HNt. unfold Message.Source.
    rewrite HText, HAtt, HMd, HNt. reflexivity.
  - intros qr HT HI HP. unfold QuickReply.Source. rewrite HT, HI, HP.
    by destruct (QuickReply.AskForLocation qr).
  - intros qr. unfold QuickReply.Source. eexists. split; [reflexivity|].
    by destruct (QuickReply.AskForLocation qr); simplify_map_eq.
  - intros a HID HR. unfold MultimediaAttachment.Source. by rewrite HID, HR.
  - intros t HS HB. unfold ListTemplate.Source. rewrite HS, HB. cbn.
    by destruct (Sources _ _).
  - intros e HS HI HIm HB HD. unfold Element.Source. by rewrite HS, HI, HIm, HB, HD.
  - intros b HW HM HF. unfold URLButton.Source. by rewrite HW, HM, HF.
  - by intros m1 m2 ->.
Qed.

(** ** No [Source] of the package returns an error *)












(** ** The webhook: classification and dispatch *)

(** The classification of the code is the first match in the order of
    precedence. *)
Lemma Event_kind_first_match (cb : callback.t) (pageID : string) :
  Event_kind (callback.Event cb pageID) = Some (first_match cb).
Proof.
  destruct cb as [sender recipient ts msg dlv rd pb al opt ref extra].
  unfold callback.Event, first_match. cbn.
  destruct msg; [done|]. destruct dlv; [done|]. destruct rd; [done|].
  destruct pb; [done|]. destruct al as [al|]; [by case_decide|].
  destruct opt; [done|]. by destruct ref.
Qed.

Section dispatch.
Context {S : Type} (wh : webhook.t S).

Let emit (s : S) (e : Event) : S := webhook.listener wh e s.



(** A [null] element stops the loop with a panic: the callbacks before it
    have been dispatched, those after it are not. *)
Lemma range_Callbacks_nil (pageID : string) (cbs1 cbs2 : list (option callback.t)) (s : S) :
  Forall (λ o, o ≠ None) cbs1 →
  webhook.range_Callbacks wh pageID (cbs1 ++ None :: cbs2) s =
    inl (foldl emit s (omap (λ o, (λ cb, callback.Event cb pageID) <$> o) cbs1)).
Proof.
  intros Hrec. revert s. induction Hrec as [|[cb|] cbs Hcb _ IH]; intros s; [done| |done].
  cbn. by rewrite IH.
Qed.
End dispatch.




(** The same request, evaluated: three callbacks, three events, in order. *)
Example handleCallbacks_example :
  @webhook.handleCallbacks (list Event) keep_payloads (envelope_of example_entries)
    (webhook.mk recorder ∅) ResponseWriter.fresh (Request.mk MethodPost ∅ (Reads "")) [] =
  webhook.Returns (ResponseWriter.mk (Some 200) "")
    [ OfMessageReceived
        (MessageReceived.set_Metadata (Metadata.mk "P1" "U1" "P1" 200) MessageReceived.zero);
      OfCallbackUnsupported (CallbackUnsupported.mk (Metadata.mk "P1" "U2" "" 0) None);
      OfAccountUnlinked (AccountUnlinked.mk (Metadata.mk "P2" "" "" 0) "") ].
Proof. vm_compute. reflexivity. Qed.

(** A [null] in [messaging] makes the handler panic at that element. *)
Example handleCallbacks_null_element :
  @webhook.handleCallbacks (list Event) keep_payloads
    (envelope_of [ cbs.mkPage "P1" 100 [ Some [("foo", JString "bar")]; None; Some [] ] ])
    (webhook.mk recorder ∅) ResponseWriter.fresh (Request.mk MethodPost ∅ (Reads "")) [] =
  webhook.Panics ResponseWriter.fresh
    [ OfCallbackUnsupported (CallbackUnsupported.mk (Metadata.mk "P1" "" "" 0) None) ].
Proof. vm_compute. reflexivity. Qed.

(** ** Metadata *)

(** The claim that the timestamp of the metadata is the time of the entry
    fails on the example: the entry's time is 100, the metadata carries the
    callback's own timestamp, 200. *)
Lemma C4_entry_time_counterexample :
  Some example_message_and_linking ∈ cbs.Callbacks example_page
  ∧ Event_Metadata (callback.Event example_message_and_linking (cbs.ID example_page))
    = Some (Metadata.mk "P1" "U1" "P1" 200)
  ∧ Event_Metadata (callback.Event example_message_and_linking (cbs.ID example_page))
    ≠ Some (Metadata.mk (cbs.ID example_page)
              (callback.ID (callback.Sender example_message_and_linking))
              (callback.ID (callback.Recipient example_message_and_linking))
              (cbs.Timestamp example_page)).
Proof. split; [by left|]. split; [reflexivity|]. vm_compute. discriminate. Qed.

Lemma elem_of_events (pages : list (cbs.Page_t callback.t)) (e : Event) :
  e ∈ events pages ↔
  ∃ page cb, page ∈ pages ∧ Some cb ∈ cbs.Callbacks page
             ∧ e = callback.Event cb (cbs.ID page).
Proof.
  unfold events. rewrite list_elem_of_bind. split.
  - intros (page & He & Hpage). unfold Page_events in He.
    apply list_elem_of_omap in He as ([cb|] & Hcb & Heq); [|done].
    injection Heq as <-. by exists page, cb.
  - intros (page & cb & Hpage & Hcb & ->). exists page. split; [|done].
    unfold Page_events. apply list_elem_of_omap. by exists (Some cb).
Qed.

(** C4 (amended).  The metadata of the event of a callback holds the id of
    the enclosing entry as page id, and the callback's own sender id,
    recipient id and timestamp; the time of the entry is not used.  This
    holds for every event the handler dispatches. *)
Theorem C4_Metadata_from_entry_id_and_callback :
  (∀ (page : cbs.Page_t callback.t) (cb : callback.t),
     Event_Metadata (callback.Event cb (cbs.ID page)) =
       Some (Metadata.mk (cbs.ID page)
               (callback.ID (callback.Sender cb))
               (callback.ID (callback.Recipient cb))
               (callback.Timestamp cb)))
  ∧ (∀ (pages : list (cbs.Page_t callback.t)) (e : Event),
       e ∈ events pages →
       ∃ page cb, page ∈ pages ∧ Some cb ∈ cbs.Callbacks page
         ∧ Event_Metadata e =
             Some (Metadata.mk (cbs.ID page)
                     (callback.ID (callback.Sender cb))
                     (callback.ID (callback.Recipient cb))
                     (callback.Timestamp cb))).
Proof.
  assert (∀ (page : cbs.Page_t callback.t) (cb : callback.t),
     Event_Metadata (callback.Event cb (cbs.ID page)) =
       Some (Metadata.mk (cbs.ID page)
               (callback.ID (callback.Sender cb))
               (callback.ID (callback.Recipient cb))
               (callback.Timestamp cb))) as Hmd.
  { intros page [sender recipient ts msg dlv rd pb al opt ref extra].
    unfold callback.Event. cbn.
    destruct msg; [done|]. destruct dlv; [done|]. destruct rd; [done|].
    destruct pb; [done|]. destruct al as [al|]; [by case_decide|].
    destruct opt; [done|]. by destruct ref. }
  split; [exact Hmd|].
  intros pages e (page & cb & Hpage & Hcb & ->)%elem_of_events.
  exists page, cb. by rewrite Hmd.
Qed.

(** ** Account linking *)

(** A callback that holds an account_linking object with status [linked]
    and also a message is dispatched as a message, not as an account
    link: the claim fails for it. *)
Lemma C7_message_first_counterexample :
  callback.AccountLinking example_message_and_linking
    = Some (callback.mkAccountLinking "linked" "c0de")
  ∧ callback.Event example_message_and_linking "P1"
    = OfMessageReceived
        (MessageReceived.set_Metadata (Metadata.mk "P1" "U1" "P1" 200) MessageReceived.zero)
  ∧ ∀ e, callback.Event example_message_and_linking "P1" ≠ OfAccountLinked e.
Proof. split; [reflexivity|]. split; [reflexivity|]. intros e. vm_compute. discriminate. Qed.

(** C7 (amended).  For a callback with an account_linking object and none
    of the fields that take precedence over it (message, delivery, read,
    postback): status [linked] gives [AccountLinked] with the authorization
    code of the payload; any other status gives [AccountUnlinked], whose
    authorization code is the empty string whatever the payload holds. *)
Theorem C7_account_linking_by_status (cb : callback.t) (al : callback.AccountLinking_t)
    (pageID : string) :
  callback.Message cb = None → callback.Delivery cb = None →
  callback.Read cb = None → callback.Postback cb = None →
  callback.AccountLinking cb = Some al →
  let md := Metadata.mk pageID (callback.ID (callback.Sender cb))
              (callback.ID (callback.Recipient cb)) (callback.Timestamp cb) in
  (callback.Status al = "linked" →
     callback.Event cb pageID
       = OfAccountLinked (AccountLinked.mk md (callback.AuthorizationCode al)))
  ∧ (callback.Status al ≠ "linked" →
       callback.Event cb pageID = OfAccountUnlinked (AccountUnlinked.mk md "")).
Proof.
  intros Hmsg Hdlv Hrd Hpb Hal md. unfold callback.Event.
  rewrite Hmsg, Hdlv, Hrd, Hpb, Hal. fold md.
  split; intros Hst; [by rewrite decide_True|by rewrite decide_False].
Qed.

Lemma C7_account_linking_by_status_witness :
  let linking := callback.mk (callback.mkID "U1") (callback.mkID "P1") 200
                   None None None None
                   (Some (callback.mkAccountLinking "linked" "c0de")) None None None in
  callback.Event linking "P1"
    = OfAccountLinked (AccountLinked.mk (Metadata.mk "P1" "U1" "P1" 200) "c0de")
  ∧ callback.Event example_unlinking "P2"
    = OfAccountUnlinked (AccountUnlinked.mk (Metadata.mk "P2" "" "" 0) "").
Proof.
  intros linking. split.
  - apply (C7_account_linking_by_status linking
             (callback.mkAccountLinking "linked" "c0de") "P1"); reflexivity.
  - apply (C7_account_linking_by_status example_unlinking
             (callback.mkAccountLinking "unlinked" "c0de") "P2"); (reflexivity || done).
Defined.

(** ** Unrecognized callbacks *)

(** What the code does with a decoded callback that has none of the
    recognized fields: the event is [CallbackUnsupported] and carries the
    callback's [Extra] as it was decoded. *)
Lemma Event_unsupported (cb : callback.t) (pageID : string) :
  first_match cb = KUnsupported →
  callback.Event cb pageID =
    OfCallbackUnsupported
      (CallbackUnsupported.mk
         (Metadata.mk pageID (callback.ID (callback.Sender cb))
            (callback.ID (callback.Recipient cb)) (callback.Timestamp cb))
         (callback.Extra cb)).
Proof.
  destruct cb as [sender recipient ts msg dlv rd pb al opt ref extra].
  unfold callback.Event, first_match. cbn.
  destruct msg; [done|]. destruct dlv; [done|]. destruct rd; [done|].
  destruct pb; [done|]. destruct al; [done|]. destruct opt; [done|]. by destruct ref.
Qed.

Section Extra.
Context `{!encoding_json.PayloadDecoders}.

(** Decoding a member leaves [Extra] as it is unless the member binds to
    the field [Extra]. *)
Lemma set_field_Extra (f : callback.field) (v : json) (cb cb' : callback.t) :
  f ≠ callback.FExtra → callback.set_field f v cb = Some cb' →
  callback.Extra cb' = callback.Extra cb.
Proof.
  intros Hf. destruct f; [| | | | | | | | | |done]; cbn;
    (match goal with |- context [mbind _ ?x] => destruct x as [y|] end;
     cbn; [by intros [= <-]|done]).
Qed.

(** Members that do not bind to the field [Extra] leave it as it is. *)
Lemma decode_members_Extra (members : list (string * json)) (cur cb : callback.t) :
  Forall (λ kv, encoding_json.find_field callback.fields kv.1 ≠ Some callback.FExtra) members →
  encoding_json.decode_members callback.fields callback.set_field members cur = Some cb →
  callback.Extra cb = callback.Extra cur.
Proof.
  intros Hall. revert cur.
  induction Hall as [|[key v] members Hkv _ IH]; intros cur; cbn.
  - by intros [= <-].
  - destruct (encoding_json.find_field callback.fields key) as [f|] eqn:Hf; [|apply IH].
    destruct (callback.set_field f v cur) as [cur'|] eqn:Hset; cbn; [|done].
    intros Hdec. rewrite (IH _ Hdec).
    apply (set_field_Extra f v); [|done]. by intros ->.
Qed.

(** [Extra] stays nil unless a key of the callback object binds to the
    field named [Extra]: no other key is ever put into it. *)
Lemma Unmarshal_Extra_nil (members : list (string * json)) (cb : callback.t) :
  Forall (λ kv, encoding_json.find_field callback.fields kv.1 ≠ Some callback.FExtra) members →
  callback.Unmarshal members = Some cb → callback.Extra cb = None.
Proof. intros Hall Hdec. by rewrite (decode_members_Extra _ _ _ Hall Hdec). Qed.

(** C3 (the code at the failing input).  A callback object whose only
    member is the unrecognized key [foo] decodes to the zero callback: the
    member binds to no field and is skipped.  The event is
    [CallbackUnsupported] with a nil [Extra], which does not carry [foo].
    [Extra] is filled only from a member whose key is [Extra] (up to
    case). *)
Theorem C3_unrecognized_key_not_in_Extra :
  encoding_json.find_field callback.fields "foo" = None
  ∧ callback.Unmarshal [("foo", JString "bar")] = Some callback.zero
  ∧ (∀ pageID,
       callback.Event callback.zero pageID =
         OfCallbackUnsupported
           (CallbackUnsupported.mk (Metadata.mk pageID "" "" 0) None))
  ∧ encoding_json.find_field callback.fields "extra" = Some callback.FExtra
  ∧ callback.Extra <$> callback.Unmarshal [("Extra", JObject [("foo", JString "bar")])]
    = Some (Some {[ "foo" := JString "bar" ]}).
Proof. split_and!; try reflexivity. Qed.
End Extra.

(** ** The verification handshake *)

Section verification.
Context {S : Type}.

(** The tokens of a handler built with [VerifyToken] options. *)
Lemma verifyTokens_options (wh : webhook.t S) (tokens : list string) :
  webhook.verifyTokens (foldl (λ wh opt, opt wh) wh (VerifyToken <$> tokens))
  = list_to_set tokens ∪ webhook.verifyTokens wh.
Proof.
  revert wh. induction tokens as [|t tokens IH]; intros wh; cbn.
  - set_solver.
  - rewrite IH. cbn. set_solver.
Qed.

Lemma listener_options (wh : webhook.t S) (tokens : list string) :
  webhook.listener (foldl (λ wh opt, opt wh) wh (VerifyToken <$> tokens))
  = webhook.listener wh.
Proof.
  revert wh. induction tokens as [|t tokens IH]; intros wh; cbn; [done|]. by rewrite IH.
Qed.

Lemma handleVerification_spec (wh : webhook.t S) (r : Request.t) (s : S) :
  let token := Values.Get (Request.Query r) "hub.verify_token" in
  let challenge := Values.Get (Request.Query r) "hub.challenge" in
  webhook.handleVerification wh ResponseWriter.fresh r s =
    if decide (token ∈ webhook.verifyTokens wh) then
      webhook.Returns (ResponseWriter.mk (Some StatusOK) challenge)
        (webhook.listener wh (OfVerificationCompleted (VerificationCompleted.mk challenge)) s)
    else
      webhook.Returns (ResponseWriter.mk (Some StatusForbidden) "")
        (webhook.listener wh
           (OfVerificationFailed (VerificationFailed.mk token ErrVerifyTokenMismatch)) s).
Proof. cbv zeta. unfold webhook.handleVerification. by case_decide. Qed.
End verification.

(** C5.  A GET request to a handler configured with the tokens [tokens]:
    when the value of [hub.verify_token] is not one of them (so always when
    there are none), the listener is called once, with [VerificationFailed]
    holding that value and [ErrVerifyTokenMismatch], and the response is
    403 with an empty body; otherwise the listener is called once, with
    [VerificationCompleted] holding the value of [hub.challenge], and the
    response is 200 with that value as its body. *)
Theorem C5_verification_handshake {S : Type}
    `{!encoding_json.PayloadDecoders} `{!cbs.EnvelopeDecoder}
    (l : EventListener S) (tokens : list string) (r : Request.t) (s : S) :
  Request.Method r = MethodGet →
  let token := Values.Get (Request.Query r) "hub.verify_token" in
  let challenge := Values.Get (Request.Query r) "hub.challenge" in
  (token ∉ tokens →
     WebhookHandler l (VerifyToken <$> tokens) ResponseWriter.fresh r s =
       webhook.Returns (ResponseWriter.mk (Some StatusForbidden) "")
         (l (OfVerificationFailed (VerificationFailed.mk token ErrVerifyTokenMismatch)) s))
  ∧ (token ∈ tokens →
       WebhookHandler l (VerifyToken <$> tokens) ResponseWriter.fresh r s =
         webhook.Returns (ResponseWriter.mk (Some StatusOK) challenge)
           (l (OfVerificationCompleted (VerificationCompleted.mk challenge)) s))
  ∧ (tokens = [] →
       WebhookHandler l (VerifyToken <$> tokens) ResponseWriter.fresh r s =
         webhook.Returns (ResponseWriter.mk (Some StatusForbidden) "")
           (l (OfVerificationFailed (VerificationFailed.mk token ErrVerifyTokenMismatch)) s)).
Proof.
  intros Hget token challenge.
  assert (WebhookHandler l (VerifyToken <$> tokens) ResponseWriter.fresh r s =
    if decide (token ∈ tokens) then
      webhook.Returns (ResponseWriter.mk (Some StatusOK) challenge)
        (l (OfVerificationCompleted (VerificationCompleted.mk challenge)) s)
    else
      webhook.Returns (ResponseWriter.mk (Some StatusForbidden) "")
        (l (OfVerificationFailed (VerificationFailed.mk token ErrVerifyTokenMismatch)) s))
    as ->.
  { unfold WebhookHandler. rewrite decide_True by done.
    rewrite handleVerification_spec. cbv zeta. rewrite verifyTokens_options. cbn.
    fold token challenge.
    rewrite listener_options. cbn.
    destruct (decide (token ∈ tokens)) as [Hin|Hout].
    - by rewrite decide_True by set_solver.
    - by rewrite decide_False by set_solver. }
  split_and!.
  - intros Hout. by rewrite decide_False.
  - intros Hin. by rewrite decide_True.
  - intros ->. rewrite decide_False; [done|]. by intros ?%elem_of_nil.
Qed.

Lemma C5_verification_handshake_witness :
  let bad := Request.mk MethodGet
               {[ "hub.verify_token" := ["bad"]; "hub.challenge" := ["1234"] ]} (Reads "") in
  let good := Request.mk MethodGet
                {[ "hub.verify_token" := ["good"]; "hub.challenge" := ["1234"] ]} (Reads "") in
  @WebhookHandler (list Event) keep_payloads (envelope_of [])
    recorder (VerifyToken <$> ["good"]) ResponseWriter.fresh bad [] =
    webhook.Returns (ResponseWriter.mk (Some 403) "")
      [ OfVerificationFailed (VerificationFailed.mk "bad" ErrVerifyTokenMismatch) ]
  ∧ @WebhookHandler (list Event) keep_payloads (envelope_of [])
      recorder (VerifyToken <$> ["good"]) ResponseWriter.fresh good [] =
      webhook.Returns (ResponseWriter.mk (Some 200) "1234")
        [ OfVerificationCompleted (VerificationCompleted.mk "1234") ].
Proof.
  intros bad good. split.
  - apply (proj1 (@C5_verification_handshake (list Event) keep_payloads (envelope_of [])
                    recorder ["good"] bad [] eq_refl)).
    vm_compute. by intros [?|?]%elem_of_cons; [|set_solver].
  - apply (proj1 (proj2 (@C5_verification_handshake (list Event) keep_payloads
                           (envelope_of []) recorder ["good"] good [] eq_refl))).
    vm_compute. by left.
Defined.

(** Any other method: 405, and the listener is not called. *)
Lemma WebhookHandler_method_not_allowed {S : Type}
    `{!encoding_json.PayloadDecoders} `{!cbs.EnvelopeDecoder}
    (l : EventListener S) (opts : list (WebhookOption S)) (r : Request.t) (s : S) :
  Request.Method r ≠ MethodGet → Request.Method r ≠ MethodPost →
  WebhookHandler l opts ResponseWriter.fresh r s =
    webhook.Returns (ResponseWriter.mk (Some StatusMethodNotAllowed) "") s.
Proof. intros Hget Hpost. unfold WebhookHandler. by rewrite !decide_False. Qed.

(** ** The sender: responses outside 200-299 *)

Section checkResponse.
Variable NewRequest : string → string → json → error + Call.t.
Variable Unmarshal_errResp : string → error + fbError.t.

Lemma checkResponse_2xx (s : Sender.t) (resp : Response.t) :
  200 <= Response.StatusCode resp <= 299 →
  Sender.checkResponse Unmarshal_errResp s resp = None.
Proof. intros [? ?]. unfold Sender.checkResponse. rewrite decide_True; [done|]. lia. Qed.

Lemma checkResponse_non_2xx (s : Sender.t) (resp : Response.t) :
  ¬ (200 <= Response.StatusCode resp <= 299) →
  Sender.checkResponse Unmarshal_errResp s resp =
    Some (match Response.Body resp with
          | ReadFails err => fallback err resp
          | Reads slurp =>
              match Unmarshal_errResp slurp with
              | inl err => fallback err resp
              | inr envelope => FbError envelope
              end
          end).
Proof.
  intros Hcode. unfold Sender.checkResponse. rewrite decide_False by lia.
  destruct (Response.Body resp) as [slurp|err]; [|done].
  by destruct (Unmarshal_errResp slurp).
Qed.
End checkResponse.

(** C6.  A send whose HTTP response has a status outside 200-299 returns
    an [*fbError]: the one decoded from the error envelope, field for
    field, when the body decodes; else one whose message is that of the
    read or decode failure and whose code is the HTTP status code.  It
    never returns a nil error, and leaves [dst] untouched. *)
Theorem C6_non_2xx_is_typed_error
    (NewRequest : string → string → json → error + Call.t)
    (Unmarshal_errResp : string → error + fbError.t)
    {D : Type} `{!Decodable D}
    (s : Sender.t) (src : value) (dst : option D) (call : Call.t) (resp : Response.t) :
  NewRequest "POST" (Sender.endpoint s) (Marshal src) = inr call →
  Sender.client s (Call.Header_Set "Content-Type" "application/json" call) = inr resp →
  ¬ (200 <= Response.StatusCode resp <= 299) →
  let sent := Sender.send NewRequest Unmarshal_errResp s src dst in
  (∀ slurp envelope,
     Response.Body resp = Reads slurp → Unmarshal_errResp slurp = inr envelope →
     sent.1 = Some (FbError envelope))
  ∧ (∀ slurp err,
       Response.Body resp = Reads slurp → Unmarshal_errResp slurp = inl err →
       sent.1 = Some (FbError (fbError.mk (error_Error err) "" (Response.StatusCode resp) 0 "")))
  ∧ (∀ err,
       Response.Body resp = ReadFails err →
       sent.1 = Some (FbError (fbError.mk (error_Error err) "" (Response.StatusCode resp) 0 "")))
  ∧ (∃ e, sent.1 = Some (FbError e))
  ∧ sent.2 = dst.
Proof.
  intros Hreq Hdo Hcode sent.
  assert (sent = (Sender.checkResponse Unmarshal_errResp s resp, dst)) as ->.
  { unfold sent, Sender.send. rewrite Hreq, Hdo.
    rewrite (checkResponse_non_2xx _ _ _ Hcode). reflexivity. }
  rewrite (checkResponse_non_2xx _ _ _ Hcode). cbn. split_and!.
  - intros slurp envelope -> Henv. by rewrite Henv.
  - intros slurp err -> Herr. by rewrite Herr.
  - by intros err ->.
  - destruct (Response.Body resp) as [slurp|err]; [|by eexists].
    destruct (Unmarshal_errResp slurp); by eexists.
  - done.
Qed.

Lemma C6_non_2xx_is_typed_error_witness :
  let src := VMap {[ "recipient" := VMap {[ "id" := VString "U1" ]} ]} in
  (@Sender.send example_NewRequest example_Unmarshal_errResp _ example_Decodable
     (example_Sender 400 "envelope") src (Some MessageResponse.zero)).1
    = Some (FbError example_envelope)
  ∧ (@Sender.send example_NewRequest example_Unmarshal_errResp _ example_Decodable
       (example_Sender 502 "Bad Gateway") src (Some MessageResponse.zero)).1
    = Some (FbError (fbError.mk "invalid character" "" 502 0 "")).
Proof.
  intros src. split.
  - eapply (proj1 (@C6_non_2xx_is_typed_error example_NewRequest example_Unmarshal_errResp
                     _ example_Decodable (example_Sender 400 "envelope") src
                     (Some MessageResponse.zero) _ (Response.mk 400 (Reads "envelope"))
                     eq_refl eq_refl ltac:(cbn; lia))); reflexivity.
  - eapply (proj1 (proj2 (@C6_non_2xx_is_typed_error example_NewRequest
                     example_Unmarshal_errResp
                     _ example_Decodable (example_Sender 502 "Bad Gateway") src
                     (Some MessageResponse.zero) _ (Response.mk 502 (Reads "Bad Gateway"))
                     eq_refl eq_refl ltac:(cbn; lia))) "Bad Gateway"
                     (ErrorString "invalid character")); reflexivity.
Defined.

(** ** Further properties of the specification *)

(** A multimedia attachment with an attachment id is sent by id: the
    payload holds [attachment_id] only, whatever the URL and the reusable
    flag are. *)
Theorem MultimediaAttachment_id_takes_precedence (a : MultimediaAttachment.t) :
  MultimediaAttachment.AttachmentID a ≠ "" →
  MultimediaAttachment.Source a =
    Ok (VMap (<["payload" :=
                VMap {[ "attachment_id" := VString (MultimediaAttachment.AttachmentID a) ]}]>
               {[ "type" := VString (MultimediaAttachment.Type_ a) ]})).
Proof. intros Hid. unfold MultimediaAttachment.Source. by rewrite decide_True. Qed.

Lemma MultimediaAttachment_id_takes_precedence_witness :
  Marshal <$> MultimediaAttachment.Source
    (MultimediaAttachment.mk Image "https://example.org/a.png" "A1" true)
  = Ok (JObject [("payload", JObject [("attachment_id", JString "A1")]);
                 ("type", JString "image")]).
Proof.
  rewrite (MultimediaAttachment_id_takes_precedence
             (MultimediaAttachment.mk Image "https://example.org/a.png" "A1" true));
    [reflexivity|done].
Defined.

(** A body that cannot be read or decoded: 400, and the listener is not
    called. *)
Theorem handleCallbacks_malformed_body {S : Type}
    `{!encoding_json.PayloadDecoders} `{!cbs.EnvelopeDecoder}
    (wh : webhook.t S) (r : Request.t) (s : S) :
  match Request.Body r with
  | ReadFails _ => True
  | Reads body => cbs.Unmarshal body = None
  end →
  webhook.handleCallbacks wh ResponseWriter.fresh r s =
    webhook.Returns (ResponseWriter.mk (Some StatusBadRequest) "") s.
Proof.
  unfold webhook.handleCallbacks. destruct (Request.Body r) as [body|err]; [|done].
  by intros ->.
Qed.

Lemma handleCallbacks_malformed_body_witness :
  @webhook.handleCallbacks (list Event) keep_payloads (λ _, None)
    (webhook.mk recorder ∅) ResponseWriter.fresh (Request.mk MethodPost ∅ (Reads "{")) [] =
    webhook.Returns (ResponseWriter.mk (Some 400) "") [].
Proof.
  apply (@handleCallbacks_malformed_body (list Event) keep_payloads (λ _, None)).
  reflexivity.
Defined.

Lemma WebhookHandler_method_not_allowed_witness :
  @WebhookHandler (list Event) keep_payloads (envelope_of example_entries)
    recorder (VerifyToken <$> ["good"]) ResponseWriter.fresh
    (Request.mk "PUT" ∅ (Reads "")) [] =
    webhook.Returns (ResponseWriter.mk (Some 405) "") [].
Proof.
  apply (@WebhookHandler_method_not_allowed (list Event) keep_payloads
           (envelope_of example_entries)); done.
Defined.

(** ** Examples *)

(** The message of the README. *)
Example Message_Source_hello :
  Marshal <$> Message.Source
    (Message.mk (Some (Recipient.OfUser "USER_PAGE_ID")) "Hello!" None [] "" "")
  = Ok (JObject [("message", JObject [("text", JString "Hello!")]);
                 ("recipient", JObject [("id", JString "USER_PAGE_ID")])]).
Proof. vm_compute. reflexivity. Qed.

(** A message without recipient, and a template with a nil button: the
    call through the nil interface panics. *)
Example Message_Source_nil_recipient :
  Message.Source (Message.mk None "Hello!" None [] "" "") = Panic.
Proof. reflexivity. Qed.

Example ButtonTemplate_Source_nil_button :
  ButtonTemplate.Source (ButtonTemplate.mk "pick" [Some (Button.OfShareButton ShareButton.mk); None])
  = Panic.
Proof. reflexivity. Qed.

(** Keys bind to fields up to case, and to nothing else. *)
Example find_field_examples :
  encoding_json.find_field callback.fields "message" = Some callback.FMessage
  ∧ encoding_json.find_field callback.fields "Message" = Some callback.FMessage
  ∧ encoding_json.find_field callback.fields "EXTRA" = Some callback.FExtra
  ∧ encoding_json.find_field callback.fields "inline" = None
  ∧ encoding_json.find_field callback.fields "standby" = None.
Proof. by split_and!. Qed.

(** * Further properties of the code *)

(** ** Rendering loses nothing: leaves *)

(** Equal renderings have equal fields. *)
Ltac fields_of H ks :=
  lazymatch ks with
  | nil => idtac
  | cons ?k ?ks' =>
      let E := fresh "E" in
      pose proof (f_equal (field_of k) H) as E; vm_compute in E;
      fields_of H ks'
  end.

(** The tree of a recipient tells a user id from a phone number and holds
    the id or number itself: two recipients with the same tree are the
    same. *)
Theorem Recipient_Source_injective (r1 r2 : Recipient.t) :
  Recipient.Source r1 = Recipient.Source r2 → r1 = r2.
Proof.
  destruct r1 as [u1|n1], r2 as [u2|n2]; intros H;
    fields_of H ["id"; "phone_number"]; congruence.
Qed.

Lemma Recipient_Source_injective_witness :
  Recipient.OfUser "42" = Recipient.OfUser ("4" ++ "2")
  ∧ Recipient.Source (Recipient.OfUser "42") ≠ Recipient.Source (Recipient.OfPhoneNumber "42").
Proof.
  split.
  - apply (Recipient_Source_injective (Recipient.OfUser "42") (Recipient.OfUser ("4" ++ "2"))).
    reflexivity.
  - intros H.
    by pose proof (Recipient_Source_injective (Recipient.OfUser "42")
                     (Recipient.OfPhoneNumber "42") H).
Defined.

(** An optional string field is rendered under its key when it is not
    empty, and left out when it is: the key tells the field. *)
Lemma optional_string_inj (a b : string) :
  (if decide (a ≠ "") then Some (VString a) else None)
  = (if decide (b ≠ "") then Some (VString b) else None) →
  a = b.
Proof.
  repeat case_decide; intros Heq; simplify_eq; try done;
    repeat match goal with H : ¬ (_ ≠ _) |- _ => apply dec_stable in H end; congruence.
Qed.

Lemma QuickReply_Source_fields (qr : QuickReply.t) :
  field_of "title" (QuickReply.Source qr)
    = (if decide (QuickReply.Title qr ≠ "") then Some (VString (QuickReply.Title qr)) else None)
  ∧ field_of "image_url" (QuickReply.Source qr)
    = (if decide (QuickReply.ImageURL qr ≠ "")
       then Some (VString (QuickReply.ImageURL qr)) else None)
  ∧ field_of "payload" (QuickReply.Source qr)
    = (if decide (QuickReply.Payload qr ≠ "")
       then Some (VString (QuickReply.Payload qr)) else None)
  ∧ field_of "content_type" (QuickReply.Source qr)
    = Some (VString (if QuickReply.AskForLocation qr then "location" else "text")).
Proof.
  destruct qr as [t i p a]. unfold QuickReply.Source. cbn.
  destruct a; repeat case_decide; by split_and!.
Qed.

(** The tree of a quick reply determines the quick reply: an omitted key
    stands for the empty string, and [content_type] for the location
    flag. *)
Theorem QuickReply_Source_injective (qr1 qr2 : QuickReply.t) :
  QuickReply.Source qr1 = QuickReply.Source qr2 → qr1 = qr2.
Proof.
  intros H.
  destruct (QuickReply_Source_fields qr1) as (Ht1 & Hi1 & Hp1 & Hc1).
  destruct (QuickReply_Source_fields qr2) as (Ht2 & Hi2 & Hp2 & Hc2).
  rewrite H in Ht1, Hi1, Hp1, Hc1.
  rewrite Ht2 in Ht1. rewrite Hi2 in Hi1. rewrite Hp2 in Hp1. rewrite Hc2 in Hc1.
  apply optional_string_inj in Ht1, Hi1, Hp1.
  destruct qr1 as [t1 i1 p1 a1], qr2 as [t2 i2 p2 a2]. cbn in *.
  subst. by destruct a1, a2.
Qed.

Lemma QuickReply_Source_injective_witness :
  QuickReply.mk "Red" "" "RED" false = QuickReply.mk "Red" "" ("RE" ++ "D") false
  ∧ QuickReply.Source (QuickReply.mk "" "" "" true)
    ≠ QuickReply.Source (QuickReply.mk "" "" "" false).
Proof.
  split.
  - apply (QuickReply_Source_injective (QuickReply.mk "Red" "" "RED" false)
             (QuickReply.mk "Red" "" ("RE" ++ "D") false)).
    reflexivity.
  - intros H.
    by pose proof (QuickReply_Source_injective (QuickReply.mk "" "" "" true)
                     (QuickReply.mk "" "" "" false) H).
Defined.

Lemma URLButton_Source_fields (b : URLButton.t) :
  field_of "type" (URLButton.Source b) = Some (VString "web_url")
  ∧ field_of "title" (URLButton.Source b) = Some (VString (URLButton.Title b))
  ∧ field_of "url" (URLButton.Source b) = Some (VString (URLButton.URL b))
  ∧ field_of "webview_height_ratio" (URLButton.Source b)
    = (if decide (URLButton.WebviewHeightRatio b ≠ "")
       then Some (VString (URLButton.WebviewHeightRatio b)) else None)
  ∧ field_of "messenger_extensions" (URLButton.Source b)
    = (if URLButton.MessengerExtensions b then Some (VBool true) else None)
  ∧ field_of "fallback_url" (URLButton.Source b)
    = (if decide (URLButton.FallbackURL b ≠ "")
       then Some (VString (URLButton.FallbackURL b)) else None).
Proof.
  destruct b as [t u w m f]. unfold URLButton.Source. cbn.
  destruct m; repeat case_decide; by split_and!.
Qed.

(** The [type] of a rendered button names its variant. *)
Lemma Button_Source_type (btn : Button.t) :
  field_of "type" (Button.Source btn) =
    Some (VString match btn with
                  | Button.OfURLButton _ => "web_url"
                  | Button.OfPostbackButton _ => "postback"
                  | Button.OfCallButton _ => "phone_number"
                  | Button.OfShareButton _ => "element_share"
                  | Button.OfAccountLinkButton _ => "account_link"
                  | Button.OfAccountUnlinkButton _ => "account_unlink"
                  end).
Proof. destruct btn as [b| | | | |]; [apply URLButton_Source_fields|done..]. Qed.

(** The tree of a button determines the button: its [type] names the
    variant (a postback and a call button differ by it alone), and the
    other keys hold the fields, an omitted key standing for the empty
    string or for [false]. *)
Theorem Button_Source_injective (btn1 btn2 : Button.t) :
  Button.Source btn1 = Button.Source btn2 → btn1 = btn2.
Proof.
  intros H.
  pose proof (Button_Source_type btn1) as Ht1. rewrite H, Button_Source_type in Ht1.
  destruct btn1 as [b1|b1|b1|b1|b1|b1], btn2 as [b2|b2|b2|b2|b2|b2];
    try discriminate Ht1; clear Ht1; cbn [Button.Source] in H; f_equal.
  - destruct (URLButton_Source_fields b1) as (_ & Ht1 & Hu1 & Hw1 & Hm1 & Hf1).
    destruct (URLButton_Source_fields b2) as (_ & Ht2 & Hu2 & Hw2 & Hm2 & Hf2).
    rewrite H in Ht1, Hu1, Hw1, Hm1, Hf1.
    rewrite Ht2 in Ht1. rewrite Hu2 in Hu1. rewrite Hw2 in Hw1.
    rewrite Hm2 in Hm1. rewrite Hf2 in Hf1.
    apply optional_string_inj in Hw1, Hf1.
    destruct b1 as [t1 u1 w1 m1 f1], b2 as [t2 u2 w2 m2 f2]. cbn in *.
    destruct m1, m2; by simplify_eq.
  - destruct b1 as [t1 p1], b2 as [t2 p2]. fields_of H ["title"; "payload"]. by simplify_eq.
  - destruct b1 as [t1 p1], b2 as [t2 p2]. fields_of H ["title"; "payload"]. by simplify_eq.
  - by destruct b1, b2.
  - destruct b1 as [u1], b2 as [u2]. fields_of H ["url"]. by simplify_eq.
  - by destruct b1, b2.
Qed.

Lemma Button_Source_injective_witness :
  Button.OfURLButton (URLButton.mk "Open" "https://example.org" "" false "")
    = Button.OfURLButton (URLButton.mk "Open" ("https://" ++ "example.org") "" false "")
  ∧ Button.Source (Button.OfPostbackButton (PostbackButton.mk "Call" "+1555"))
    ≠ Button.Source (Button.OfCallButton (CallButton.mk "Call" "+1555")).
Proof.
  split.
  - apply (Button_Source_injective
             (Button.OfURLButton (URLButton.mk "Open" "https://example.org" "" false ""))
             (Button.OfURLButton
                (URLButton.mk "Open" ("https://" ++ "example.org") "" false ""))).
    reflexivity.
  - intros H.
    by pose proof (Button_Source_injective
                     (Button.OfPostbackButton (PostbackButton.mk "Call" "+1555"))
                     (Button.OfCallButton (CallButton.mk "Call" "+1555")) H).
Defined.

(** ** Rendering lists: one tree per child, in order *)

Section Sources_inv.
Context {A : Type} (Source : A → result value).

(** What the loop returns, when it returns: the trees of the children, in
    order, after what was there; nothing is skipped or reordered. *)
Lemma Sources_from_inv (xs : list A) (srcs r : slice value) :
  Sources_from Source xs srcs = Ok r →
  ∃ vs, Forall2 (λ x v, Source x = Ok v) xs vs
        ∧ r = match xs with [] => srcs | _ => Some (default [] srcs ++ vs)%list end.
Proof.
  revert srcs. induction xs as [|x xs IH]; intros srcs; cbn [Sources_from].
  - intros [= <-]. exists []. by split; [constructor|].
  - destruct (Source x) as [v| |] eqn:Hx; cbn; [|done..].
    intros (vs & Hvs & ->)%IH. exists (v :: vs). split; [by constructor|].
    destruct xs; cbn.
    + apply Forall2_nil_inv_l in Hvs as ->. done.
    + by rewrite <- app_assoc.
Qed.

Lemma Sources_inv (xs : list A) (r : slice value) :
  Sources Source xs = Ok r →
  ∃ vs, Forall2 (λ x v, Source x = Ok v) xs vs
        ∧ r = match xs with [] => None | _ => Some vs end.
Proof.
  intros (vs & Hvs & ->)%Sources_from_inv. exists vs. split; [done|]. by destruct xs.
Qed.

End Sources_inv.



(** A generic template renders one tree per element, in order, each the
    tree of that element. *)
Theorem GenericTemplate_Source_elements (t : GenericTemplate.t) (v : value) :
  GenericTemplate.Source t = Ok v →
  ∃ srcs,
    Forall2 (λ e src, Element.Source e = Ok src) (GenericTemplate.Elements t) srcs
    ∧ v = VMap (<["payload" :=
                  VMap (<["elements" :=
                            VSlice (match GenericTemplate.Elements t with
                                    | [] => None
                                    | _ => Some srcs
                                    end)]>
                         {[ "template_type" := VString "generic" ]})]>
                 {[ "type" := VString "template" ]}).
Proof.
  unfold GenericTemplate.Source.
  destruct (Sources _ (GenericTemplate.Elements t)) as [r| |] eqn:Hr; cbn; [|done..].
  intros [= <-]. apply Sources_inv in Hr as (srcs & Hsrcs & ->). by exists srcs.
Qed.

Lemma GenericTemplate_Source_elements_witness :
  let e1 := Element.mk "One" "" "" "" [] None in
  let e2 := Element.mk "Two" "" "" "" [] None in
  ∃ srcs,
    Forall2 (λ e src, Element.Source e = Ok src) [e1; e2] srcs
    ∧ GenericTemplate.Source (GenericTemplate.mk [e1; e2]) =
        Ok (VMap (<["payload" :=
                    VMap (<["elements" := VSlice (Some srcs)]>
                           {[ "template_type" := VString "generic" ]})]>
                   {[ "type" := VString "template" ]})).
Proof.
  intros e1 e2.
  destruct (GenericTemplate_Source_elements (GenericTemplate.mk [e1; e2])
              _ eq_refl) as (srcs & Hsrcs & Hv).
  exists srcs. split; [exact Hsrcs|]. exact (f_equal Ok Hv).
Defined.

(** ** The fields of a rendered message *)

(** Evaluate the lookups of concrete keys in the goal. *)
Ltac eval_lookups :=
  repeat match goal with
         | |- context [@lookup string value (gmap string value) _ ?k ?m] =>
             let r := eval vm_compute in (m !! k) in
             change (m !! k) with r
         end.

(** The tree of a message, when the rendering returns one.  It holds
    [recipient], [message] and possibly [notification_type], and nothing
    else; the message object holds no key besides [text], [quick_replies],
    [attachment] and [metadata].  A string field is present exactly when
    it is not empty; [attachment] is present exactly when the text is empty
    and an attachment is set, and then holds the tree of that attachment,
    so [text] and [attachment] never occur together; [quick_replies] is
    present exactly when the text is not empty and there is a quick reply,
    and then holds one tree per quick reply, in order (never null, never
    empty). *)
Theorem Message_Source_fields (m : Message.t) (v : value) :
  Message.Source m = Ok v →
  ∃ src msg : gmap string value,
    v = VMap src
    ∧ src !! "message" = Some (VMap msg)
    ∧ invoke Recipient.Source (Message.To m) = from_option Ok Panic (src !! "recipient")
    ∧ src !! "notification_type"
      = (if decide (Message.NotificationType m ≠ "")
         then Some (VString (Message.NotificationType m)) else None)
    ∧ dom src ⊆ {[ "recipient"; "message"; "notification_type" ]}
    ∧ dom msg ⊆ {[ "text"; "quick_replies"; "attachment"; "metadata" ]}
    ∧ msg !! "text"
      = (if decide (Message.Text m ≠ "") then Some (VString (Message.Text m)) else None)
    ∧ msg !! "metadata"
      = (if decide (Message.Metadata m ≠ "")
         then Some (VString (Message.Metadata m)) else None)
    ∧ (is_Some (msg !! "attachment") ↔ Message.Text m = "" ∧ Message.Attachment m ≠ None)
    ∧ (∀ a, Message.Text m = "" → Message.Attachment m = Some a →
         Attachment.Source a = from_option Ok Panic (msg !! "attachment"))
    ∧ (is_Some (msg !! "quick_replies")
       ↔ Message.Text m ≠ "" ∧ Message.QuickReplies m ≠ [])
    ∧ (∀ q, msg !! "quick_replies" = Some q →
         ∃ srcs, q = VSlice (Some srcs)
           ∧ Forall2 (λ qr src, QuickReply.Source qr = Ok src) (Message.QuickReplies m) srcs).
Proof.
  unfold Message.Source. cbv zeta.
  destruct (invoke Recipient.Source (Message.To m)) as [toSrc| |] eqn:HTo; cbn; [|done..].
  destruct (decide (Message.Text m ≠ "")) as [HText|HText].
  - destruct (QuickReplies_Sources_returns (Message.QuickReplies m)) as [replies Hqr].
    rewrite Hqr. apply Sources_inv in Hqr as (srcs & Hsrcs & ->).
    destruct (Message.QuickReplies m) as [|qr qrs] eqn:Hqrs; cbn.
    + repeat case_decide; try (exfalso; cbn in *; lia); intros [= <-]; eexists _, _;
        (split; [reflexivity|]); (split; [reflexivity|]); eval_lookups;
        split_and!; try done; try set_solver;
        try (split; [by intros [? [=]]|by intros [_ ?]]).
    + repeat case_decide; try (exfalso; cbn in *; lia); intros [= <-]; eexists _, _;
        (split; [reflexivity|]); (split; [reflexivity|]); eval_lookups;
        split_and!; try done; try set_solver;
        try (split; [by intros [? [=]]|by intros [? _]]);
        try (split; [done|by eexists]);
        try (intros q [= <-]; by exists srcs).
  - apply dec_stable in HText.
    destruct (Message.Attachment m) as [a|] eqn:Hatt.
    + destruct (Attachment.Source a) as [av| |] eqn:Hav; cbn; [|done..].
      repeat case_decide; try (exfalso; cbn in *; lia); intros [= <-]; eexists _, _;
        (split; [reflexivity|]); (split; [reflexivity|]); eval_lookups;
        split_and!; try done; try set_solver;
        try (split; [done|by eexists]);
        try (split; [by intros [? [=]]|by intros [? _]]);
        try (intros a' _ [= <-]; done).
    + cbn. repeat case_decide; try (exfalso; cbn in *; lia); intros [= <-]; eexists _, _;
        (split; [reflexivity|]); (split; [reflexivity|]); eval_lookups;
        split_and!; try done; try set_solver;
        try (split; [by intros [? [=]]|by intros [_ ?]]);
        try (split; [by intros [? [=]]|by intros [? _]]).
Qed.

Lemma Message_Source_fields_witness :
  let m := Message.mk (Some (Recipient.OfUser "U1")) ""
             (Some (Attachment.OfMultimediaAttachment
                      (MultimediaAttachment.mk Image "https://example.org/a.png" "" false)))
             [QuickReply.mk "Red" "" "RED" false] "" NoPush in
  ∃ src msg : gmap string value,
    Message.Source m = Ok (VMap src)
    ∧ src !! "message" = Some (VMap msg)
    ∧ src !! "notification_type" = Some (VString "NO_PUSH")
    ∧ msg !! "text" = None
    ∧ is_Some (msg !! "attachment")
    ∧ ¬ is_Some (msg !! "quick_replies").
Proof.
  intros m.
  destruct (Message_Source_fields m _ eq_refl)
    as (src & msg & Hv & Hmsg & _ & Hnt & _ & _ & Htext & _ & Hatt & _ & Hqr & _).
  exists src, msg. split_and!.
  - exact (f_equal Ok Hv).
  - exact Hmsg.
  - exact Hnt.
  - exact Htext.
  - apply Hatt. by split.
  - intros Hq. apply Hqr in Hq as [Ht _]. by apply Ht.
Defined.

(** ** The fields of a rendered element and of a multimedia attachment *)

(** The tree of an element, when the rendering returns one: [title] is
    always there; [subtitle], [item_url] and [image_url] are there exactly
    when not empty; [buttons] is there exactly when the element has
    buttons, and holds one tree per button, in order; [default_action] is
    there exactly when a default action is set, and is the bare tree of
    that button; no other key occurs. *)
Theorem Element_Source_fields (e : Element.t) (v : value) :
  Element.Source e = Ok v →
  ∃ src : gmap string value,
    v = VMap src
    ∧ src !! "title" = Some (VString (Element.Title e))
    ∧ src !! "subtitle"
      = (if decide (Element.Subtitle e ≠ "") then Some (VString (Element.Subtitle e)) else None)
    ∧ src !! "item_url"
      = (if decide (Element.ItemURL e ≠ "") then Some (VString (Element.ItemURL e)) else None)
    ∧ src !! "image_url"
      = (if decide (Element.ImageURL e ≠ "") then Some (VString (Element.ImageURL e)) else None)
    ∧ (is_Some (src !! "buttons") ↔ Element.Buttons e ≠ [])
    ∧ (∀ b, src !! "buttons" = Some b →
         ∃ srcs, b = VSlice (Some srcs)
           ∧ Forall2 (λ btn s, invoke Button.Source btn = Ok s) (Element.Buttons e) srcs)
    ∧ Button.Source <$> Element.DefaultAction e = Ok <$> src !! "default_action"
    ∧ dom src ⊆ {[ "title"; "subtitle"; "item_url"; "image_url"; "buttons";
                   "default_action" ]}.
Proof.
  unfold Element.Source. cbv zeta.
  destruct (Element.Buttons e) as [|btn btns] eqn:Hbtns.
  - rewrite decide_False by (cbn; lia). cbn.
    destruct (Element.DefaultAction e) as [da|]; cbn.
    + destruct (Button.Source da) as [dav| |] eqn:Hda; cbn; [|done..].
      repeat case_decide; intros [= <-]; eexists; (split; [reflexivity|]); eval_lookups;
        split_and!; try done; try set_solver;
        try (split; [by intros [? [=]]|done]).
    + repeat case_decide; intros [= <-]; eexists; (split; [reflexivity|]); eval_lookups;
        split_and!; try done; try set_solver;
        try (split; [by intros [? [=]]|done]).
  - rewrite decide_True by (cbn; lia).
    destruct (Sources _ (btn :: btns)) as [r| |] eqn:Hr; cbn; [|done..].
    apply Sources_inv in Hr as (srcs & Hsrcs & ->).
    destruct (Element.DefaultAction e) as [da|]; cbn.
    + destruct (Button.Source da) as [dav| |] eqn:Hda; cbn; [|done..].
      repeat case_decide; intros [= <-]; eexists; (split; [reflexivity|]); eval_lookups;
        split_and!; try done; try set_solver;
        try (split; [done|by eexists]);
        try (intros b [= <-]; by exists srcs).
    + repeat case_decide; intros [= <-]; eexists; (split; [reflexivity|]); eval_lookups;
        split_and!; try done; try set_solver;
        try (split; [done|by eexists]);
        try (intros b [= <-]; by exists srcs).
Qed.

Lemma Element_Source_fields_witness :
  let e := Element.mk "Shirt" "" "" "https://example.org/s.png"
             [Some (Button.OfShareButton ShareButton.mk)]
             (Some (Button.OfURLButton (URLButton.mk "" "https://example.org" "" false ""))) in
  ∃ src : gmap string value,
    Element.Source e = Ok (VMap src)
    ∧ src !! "subtitle" = None
    ∧ src !! "image_url" = Some (VString "https://example.org/s.png")
    ∧ is_Some (src !! "buttons")
    ∧ Some (Button.Source (Button.OfURLButton
                             (URLButton.mk "" "https://example.org" "" false "")))
      = Ok <$> src !! "default_action".
Proof.
  intros e.
  destruct (Element_Source_fields e _ eq_refl)
    as (src & Hv & _ & Hsub & _ & Himg & Hbtns & _ & Hda & _).
  exists src. split_and!.
  - exact (f_equal Ok Hv).
  - exact Hsub.
  - exact Himg.
  - by apply Hbtns.
  - exact Hda.
Defined.

(** A multimedia attachment is sent either by id or by URL, never both and
    never neither: the payload holds exactly one of [attachment_id] and
    [url].  [is_reusable] occurs only beside [url], and only as [true]. *)
Theorem MultimediaAttachment_Source_payload (a : MultimediaAttachment.t) :
  ∃ payload : gmap string value,
    MultimediaAttachment.Source a =
      Ok (VMap (<["payload" := VMap payload]>
                 {[ "type" := VString (MultimediaAttachment.Type_ a) ]}))
    ∧ (is_Some (payload !! "attachment_id") ↔ ¬ is_Some (payload !! "url"))
    ∧ (is_Some (payload !! "attachment_id") ↔ MultimediaAttachment.AttachmentID a ≠ "")
    ∧ (∀ x, payload !! "is_reusable" = Some x →
         x = VBool true ∧ payload !! "url" = Some (VString (MultimediaAttachment.URL a))
         ∧ MultimediaAttachment.Reusable a = true)
    ∧ dom payload ⊆ {[ "attachment_id"; "url"; "is_reusable" ]}.
Proof.
  destruct a as [ty u id re]. unfold MultimediaAttachment.Source. cbn.
  case_decide; [|destruct re]; eexists; (split; [reflexivity|]); eval_lookups;
    split_and!; try done; try set_solver.
Qed.

(** ** The sender: construction *)

Section NewSender_properties.
Context `{!url.Codec} (DefaultClient : Client).


Lemma apply_options_app (opts1 opts2 : list SenderOption) (s : SenderStruct.t) :
  apply_options (opts1 ++ opts2) s =
    match apply_options opts1 s with
    | inl err => inl err
    | inr s1 => apply_options opts2 s1
    end.
Proof.
  revert s. induction opts1 as [|opt opts1 IH]; intros s; cbn; [done|].
  by destruct (opt s).
Qed.


(** The first option that returns an error ends [NewSender] with that
    error; the options after it are not applied. *)
Theorem NewSender_first_error (accessToken : string) (opts1 opts2 : list SenderOption)
    (failing : SenderOption) (s1 : SenderStruct.t) (err : error) :
  apply_options opts1 (SenderStruct.mk accessToken None None) = inr s1 →
  failing s1 = inl err →
  NewSender DefaultClient accessToken (opts1 ++ failing :: opts2) = inl err.
Proof.
  intros H1 Hfail. unfold NewSender. rewrite apply_options_app, H1. cbn. by rewrite Hfail.
Qed.
End NewSender_properties.

Lemma NewSender_first_error_witness :
  @NewSender example_Codec example_Client "TOKEN"
    ([Endpoint None] ++ (λ _, inl (ErrorString "bad option"))
       :: [λ _, inl (ErrorString "never reached")])
  = inl (ErrorString "bad option").
Proof.
  apply (@NewSender_first_error example_Codec example_Client "TOKEN" [Endpoint None]
           [λ _, inl (ErrorString "never reached")] (λ _, inl (ErrorString "bad option"))
           (SenderStruct.mk "TOKEN" None None)); reflexivity.
Defined.

(** The default sender, and one whose endpoint was set twice. *)
Example NewSender_examples :
  sum_map id Sender.endpoint (@NewSender example_Codec example_Client "TOKEN" [])
  = inr "graph.facebook.com/v2.6/me/messages?access_token=TOKEN"
  ∧ sum_map id Sender.endpoint
      (@NewSender example_Codec example_Client "TOKEN"
         [Endpoint (Some (url.mk "https" "" None "a.example" "/x" "" false false "" "" ""));
          Endpoint (Some (url.mk "https" "" None "b.example" "/y" "" false false "" "" ""))])
    = inr "b.example/y?access_token=TOKEN".
Proof. split; reflexivity. Qed.

(** ** The sender: sending *)

Section send_properties.
Variable NewRequest : string → string → json → error + Call.t.
Variable Unmarshal_errResp : string → error + fbError.t.
Context `{!Decodable MessageResponse.t}.

(** With a status in 200-299, [SendMessage] returns what the decoder makes
    of the response body, starting from the zero response: the decoded
    response, or the decoder's error (so a 2xx answer with a body that does
    not decode is an error). *)
Theorem SendMessage_2xx (s : Sender.t) (m : Message.t) (src : value)
    (call : Call.t) (resp : Response.t) :
  Message.Source m = Ok src →
  NewRequest "POST" (Sender.endpoint s) (Marshal src) = inr call →
  Sender.client s (Call.Header_Set "Content-Type" "application/json" call) = inr resp →
  200 <= Response.StatusCode resp <= 299 →
  Sender.SendMessage NewRequest Unmarshal_errResp s m =
    match Decode (Response.Body resp) MessageResponse.zero with
    | (Some err, _) => Err err
    | (None, r) => Ok r
    end.
Proof.
  intros Hsrc Hreq Hdo Hcode. unfold Sender.SendMessage, Sender.send.
  rewrite Hsrc, Hreq, Hdo, (checkResponse_2xx _ _ _ Hcode).
  by destruct (Decode _ _) as [[err|] r].
Qed.

(** An error of [http.NewRequest] or of the HTTP client is returned as it
    is. *)
Theorem SendMessage_transport_error (s : Sender.t) (m : Message.t) (src : value)
    (err : error) :
  Message.Source m = Ok src →
  (NewRequest "POST" (Sender.endpoint s) (Marshal src) = inl err
   ∨ ∃ call, NewRequest "POST" (Sender.endpoint s) (Marshal src) = inr call
       ∧ Sender.client s (Call.Header_Set "Content-Type" "application/json" call) = inl err) →
  Sender.SendMessage NewRequest Unmarshal_errResp s m = Err err.
Proof.
  intros Hsrc H. unfold Sender.SendMessage, Sender.send. rewrite Hsrc.
  destruct H as [Hreq|(call & Hreq & Hdo)]; rewrite Hreq; [done|]. by rewrite Hdo.
Qed.

(** [SendAction] posts the recipient's tree and the action, and on a status
    in 200-299 returns no error whatever the response body is: the body is
    discarded, not decoded.  On any other status it returns the error of
    [checkResponse]; on a nil recipient it panics. *)
Theorem SendAction_result (s : Sender.t) (to : Recipient.t) (action : SenderAction)
    (recipient : value) (call : Call.t) (resp : Response.t) :
  Recipient.Source to = Ok recipient →
  NewRequest "POST" (Sender.endpoint s)
    (Marshal (VMap (<["sender_action" := VString action]> {[ "recipient" := recipient ]})))
    = inr call →
  Sender.client s (Call.Header_Set "Content-Type" "application/json" call) = inr resp →
  (200 <= Response.StatusCode resp <= 299 →
     Sender.SendAction NewRequest Unmarshal_errResp s (Some to) action = Ok ())
  ∧ (¬ (200 <= Response.StatusCode resp <= 299) →
       ∃ e, Sender.SendAction NewRequest Unmarshal_errResp s (Some to) action
            = Err (FbError e))
  ∧ Sender.SendAction NewRequest Unmarshal_errResp s None action = Panic.
Proof.
  intros Hto Hreq Hdo. unfold Sender.SendAction, Sender.send. cbn [invoke].
  rewrite Hto, Hreq, Hdo. split_and!; [| |done].
  - intros Hcode. by rewrite (checkResponse_2xx _ _ _ Hcode).
  - intros Hcode. rewrite (checkResponse_non_2xx _ _ _ Hcode). cbn.
    destruct (Response.Body resp) as [slurp|err]; [|by eexists].
    destruct (Unmarshal_errResp slurp); by eexists.
Qed.
End send_properties.

Lemma SendMessage_2xx_witness :
  @Sender.SendMessage example_NewRequest example_Unmarshal_errResp example_Decodable
    (example_Sender 200 "ok") (Message.mk (Some (Recipient.OfUser "U1")) "hi" None [] "" "")
  = Ok MessageResponse.zero.
Proof.
  apply (@SendMessage_2xx example_NewRequest example_Unmarshal_errResp example_Decodable
           (example_Sender 200 "ok") (Message.mk (Some (Recipient.OfUser "U1")) "hi" None [] "" "")
           _ _ (Response.mk 200 (Reads "ok")) eq_refl eq_refl eq_refl).
  cbn. lia.
Defined.

Lemma SendMessage_transport_error_witness :
  @Sender.SendMessage example_NewRequest example_Unmarshal_errResp example_Decodable
    (Sender.mk "TOKEN" example_Client "https://graph.facebook.com/v2.6/me/messages")
    (Message.mk (Some (Recipient.OfUser "U1")) "hi" None [] "" "")
  = Err (ErrorString "connection refused").
Proof.
  apply (@SendMessage_transport_error example_NewRequest example_Unmarshal_errResp
           example_Decodable
           (Sender.mk "TOKEN" example_Client "https://graph.facebook.com/v2.6/me/messages")
           (Message.mk (Some (Recipient.OfUser "U1")) "hi" None [] "" "") _ _ eq_refl).
  right. eexists. split; reflexivity.
Defined.

Lemma SendAction_result_witness :
  @Sender.SendAction example_NewRequest example_Unmarshal_errResp
    (Sender.mk "TOKEN" (λ _, inr (Response.mk 200 (ReadFails (ErrorString "reset"))))
       "https://graph.facebook.com/v2.6/me/messages")
    (Some (Recipient.OfUser "U1")) TypingOn
  = Ok ().
Proof.
  apply (proj1 (@SendAction_result example_NewRequest example_Unmarshal_errResp
                  (Sender.mk "TOKEN"
                     (λ _, inr (Response.mk 200 (ReadFails (ErrorString "reset"))))
                     "https://graph.facebook.com/v2.6/me/messages")
                  (Recipient.OfUser "U1") TypingOn _ _
                  (Response.mk 200 (ReadFails (ErrorString "reset")))
                  eq_refl eq_refl eq_refl)).
  cbn. lia.
Defined.

(** ** The webhook: any decoded payload *)

Lemma before_null_app (os1 os2 : list (option Event)) :
  before_null (os1 ++ os2) =
    if has_null os1 then before_null os1 else (before_null os1 ++ before_null os2)%list.
Proof.
  unfold has_null. induction os1 as [|[e|] os1 IH]; cbn; [done| |done].
  rewrite IH. by destruct (existsb _ os1).
Qed.

Lemma has_null_app (os1 os2 : list (option Event)) :
  has_null (os1 ++ os2) = has_null os1 || has_null os2.
Proof. apply existsb_app. Qed.

Section dispatch_any.
Context {S : Type} (wh : webhook.t S).

Let emit (s : S) (e : Event) : S := webhook.listener wh e s.

Lemma range_Callbacks_slots (page : cbs.Page_t callback.t) (cbs : list (option callback.t))
    (s : S) :
  let os := map (option_map (λ cb, callback.Event cb (cbs.ID page))) cbs in
  webhook.range_Callbacks wh (cbs.ID page) cbs s =
    (if has_null os then inl else inr) (foldl emit s (before_null os)).
Proof.
  cbv zeta. revert s. induction cbs as [|[cb|] cbs IH]; intros s; cbn; [done| |done].
  by rewrite IH.
Qed.

Lemma range_Pages_slots (pages : list (cbs.Page_t callback.t)) (s : S) :
  webhook.range_Pages wh pages s =
    (if has_null (slots pages) then inl else inr) (foldl emit s (before_null (slots pages))).
Proof.
  revert s. induction pages as [|page pages IH]; intros s; [done|].
  cbn [webhook.range_Pages]. rewrite range_Callbacks_slots. cbv zeta.
  unfold slots. cbn [mbind list_bind]. fold (slots pages).
  rewrite before_null_app, has_null_app. fold (Page_slots page).
  destruct (has_null (Page_slots page)); [done|].
  rewrite IH, foldl_app. cbn. by destruct (has_null (slots pages)).
Qed.
End dispatch_any.

(** For any body that decodes: the handler gives the listener the events
    of the callbacks in array order, across entries, up to the first
    [null] element of a [messaging] array.  Without such an element it
    answers 200; at one it panics, having written nothing, and the
    callbacks after it (also those of later entries) are not
    dispatched. *)
Theorem handleCallbacks_dispatch {S : Type}
    `{!encoding_json.PayloadDecoders} `{!cbs.EnvelopeDecoder}
    (wh : webhook.t S) (w : ResponseWriter.t) (r : Request.t) (s : S)
    (body : string) (payload : cbs.t callback.t) :
  Request.Body r = Reads body →
  cbs.Unmarshal body = Some payload →
  webhook.handleCallbacks wh w r s =
    (if has_null (slots (cbs.Pages payload))
     then webhook.Panics w
     else webhook.Returns (ResponseWriter.WriteHeader StatusOK w))
      (foldl (λ s e, webhook.listener wh e s) s (before_null (slots (cbs.Pages payload)))).
Proof.
  intros Hbody Hdec. unfold webhook.handleCallbacks. rewrite Hbody, Hdec.
  rewrite range_Pages_slots. by destruct (has_null _).
Qed.

Lemma handleCallbacks_dispatch_witness :
  @webhook.handleCallbacks (list Event) keep_payloads
    (envelope_of [ cbs.mkPage "P1" 100 [ Some [("foo", JString "bar")]; None ];
                   cbs.mkPage "P2" 200 [ Some [("foo", JString "bar")] ] ])
    (webhook.mk recorder ∅) ResponseWriter.fresh (Request.mk MethodPost ∅ (Reads "")) [] =
  webhook.Panics ResponseWriter.fresh
    [ OfCallbackUnsupported (CallbackUnsupported.mk (Metadata.mk "P1" "" "" 0) None) ].
Proof.
  apply (@handleCallbacks_dispatch (list Event) keep_payloads
           (envelope_of [ cbs.mkPage "P1" 100 [ Some [("foo", JString "bar")]; None ];
                          cbs.mkPage "P2" 200 [ Some [("foo", JString "bar")] ] ])
           (webhook.mk recorder ∅) ResponseWriter.fresh (Request.mk MethodPost ∅ (Reads "")) []
           ""
           (cbs.mk "page" [ cbs.mkPage "P1" 100 [ Some callback.zero; None ];
                            cbs.mkPage "P2" 200 [ Some callback.zero ] ])).
  - reflexivity.
  - vm_compute. reflexivity.
Defined.

(** Callbacks are not authenticated: what the handler does with a POST
    request does not depend on the verify tokens it was configured with.
    And no event it dispatches for a callback is a verification event. *)
Theorem handleCallbacks_ignores_verifyTokens {S : Type}
    `{!encoding_json.PayloadDecoders} `{!cbs.EnvelopeDecoder}
    (l : EventListener S) (tokens tokens' : gset string)
    (w : ResponseWriter.t) (r : Request.t) (s : S) :
  webhook.handleCallbacks (webhook.mk l tokens) w r s
  = webhook.handleCallbacks (webhook.mk l tokens') w r s
  ∧ ∀ pages : list (cbs.Page_t callback.t),
      Forall (λ e, ∀ v, e ≠ OfVerificationFailed v)
        (before_null (slots pages))
      ∧ Forall (λ e, ∀ v, e ≠ OfVerificationCompleted v)
          (before_null (slots pages)).
Proof.
  split.
  - unfold webhook.handleCallbacks.
    destruct (Request.Body r) as [body|]; [|done].
    destruct (cbs.Unmarshal body) as [payload|]; [|done].
    by rewrite !range_Pages_slots.
  - intros pages.
    assert (Forall (λ e, is_Some (Event_kind e)) (before_null (slots pages))) as Hk.
    { unfold slots. induction pages as [|page pages IH]; [constructor|].
      cbn [mbind list_bind]. rewrite before_null_app.
      assert (Forall (λ e, is_Some (Event_kind e)) (before_null (Page_slots page))) as Hp.
      { unfold Page_slots. induction (cbs.Callbacks page) as [|[cb|] cbs IHc]; cbn;
          [constructor| |constructor].
        constructor; [|done]. rewrite Event_kind_first_match. by eexists. }
      destruct (has_null _); [done|]. by apply Forall_app. }
    split; (eapply Forall_impl; [exact Hk|]); intros e [k Hk'] v ->; discriminate Hk'.
Qed.

(** The verification handshake depends on the set of the configured
    tokens only: their order and repetitions do not matter. *)
Theorem WebhookHandler_tokens_as_set {S : Type}
    `{!encoding_json.PayloadDecoders} `{!cbs.EnvelopeDecoder}
    (l : EventListener S) (tokens tokens' : list string)
    (w : ResponseWriter.t) (r : Request.t) (s : S) :
  (∀ t, t ∈ tokens ↔ t ∈ tokens') →
  WebhookHandler l (VerifyToken <$> tokens) w r s
  = WebhookHandler l (VerifyToken <$> tokens') w r s.
Proof.
  intros Hsame. unfold WebhookHandler.
  assert (foldl (λ wh opt, opt wh) (webhook.mk l ∅) (VerifyToken <$> tokens)
          = foldl (λ wh opt, opt wh) (webhook.mk l ∅) (VerifyToken <$> tokens')) as ->; [|done].
  pose proof (verifyTokens_options (webhook.mk l ∅) tokens) as Ht.
  pose proof (verifyTokens_options (webhook.mk l ∅) tokens') as Ht'.
  pose proof (listener_options (webhook.mk l ∅) tokens) as Hl.
  pose proof (listener_options (webhook.mk l ∅) tokens') as Hl'.
  remember (foldl (λ wh opt, opt wh) (webhook.mk l ∅) (VerifyToken <$> tokens)) as wh1.
  remember (foldl (λ wh opt, opt wh) (webhook.mk l ∅) (VerifyToken <$> tokens')) as wh2.
  clear Heqwh1 Heqwh2. destruct wh1 as [l1 T1], wh2 as [l2 T2].
  cbn in *. subst. f_equal. set_solver.
Qed.

Lemma WebhookHandler_tokens_as_set_witness :
  let r := Request.mk MethodGet
             {[ "hub.verify_token" := ["b"]; "hub.challenge" := ["1234"] ]} (Reads "") in
  @WebhookHandler (list Event) keep_payloads (envelope_of [])
    recorder (VerifyToken <$> ["a"; "b"; "a"]) ResponseWriter.fresh r []
  = @WebhookHandler (list Event) keep_payloads (envelope_of [])
      recorder (VerifyToken <$> ["b"; "a"]) ResponseWriter.fresh r [].
Proof.
  intros r.
  apply (@WebhookHandler_tokens_as_set (list Event) keep_payloads (envelope_of [])
           recorder ["a"; "b"; "a"] ["b"; "a"]).
  intros t. rewrite !elem_of_cons, !elem_of_nil. tauto.
Defined.

(** ** The callback object: what reaches [Extra] *)

Lemma Unmarshal_Extra_nil_witness :
  callback.Extra <$>
    @callback.Unmarshal keep_payloads
      [ ("sender", JObject [("id", JString "U2")]); ("foo", JString "bar");
        ("standby", JArray []) ]
  = Some None.
Proof.
  destruct (@callback.Unmarshal keep_payloads
              [ ("sender", JObject [("id", JString "U2")]); ("foo", JString "bar");
                ("standby", JArray []) ]) as [cb|] eqn:Hcb; [|discriminate Hcb].
  cbn. f_equal.
  apply (@Unmarshal_Extra_nil keep_payloads
           [ ("sender", JObject [("id", JString "U2")]); ("foo", JString "bar");
             ("standby", JArray []) ] cb); [|exact Hcb].
  repeat constructor; discriminate.
Defined.

(** ** When rendering fails *)





